(** * web_report.py: page-content analysis pipeline

    A shallow embedding of [src/web_report.py] (get_meta, filter_content,
    is_visible, word_tally, run_report) and the properties of its report.

    Conventions of the embedding:
    - a Python [str] is a [string]; its characters are the code points
      0..255, on which [str.strip], [str.lower], [str.split] and
      [str.replace] act as defined in [PyStr];
    - Python integers are [Z]; a float is the rational in [Q] that it
      denotes, and the quotient [n / 1024] of run_report is the double
      nearest to the exact quotient, or an OverflowError beyond the
      doubles;
    - a Python [dict] used for counting is an association list in insertion
      order, the order in which [dict.items()] yields its entries;
    - a raised exception is the [Raise] case of [result];
    - [print] is modelled by the structured value printed: run_report
      returns the [Report] whose fields are the values it prints, in order. *)

From Stdlib Require Import List String Ascii Bool Arith ZArith QArith Lia.
From Stdlib Require Import Permutation Sorted.
Import ListNotations.

Local Open Scope string_scope.
Local Open Scope list_scope.
Local Open Scope nat_scope.

(** ** Exceptions *)

Inductive exn : Type :=
| AttributeError   (* attribute access on None *)
| ValueError       (* int() of a string that is no integer literal *)
| OverflowError    (* int / int with a quotient beyond the doubles *)
| EOFError         (* input() at the end of the input *)
| KeyboardInterrupt
| SystemExit.

Inductive result (A : Type) : Type :=
| Ok (a : A)
| Raise (e : exn).

Arguments Ok {A} a.
Arguments Raise {A} e.

Definition bind {A B : Type} (m : result A) (k : A -> result B) : result B :=
  match m with
  | Ok a => k a
  | Raise e => Raise e
  end.

Notation "x <- m ;; k" := (bind m (fun x => k))
  (at level 61, m at next level, right associativity).

(** ** Python string methods used by the program *)

Module PyStr.

(** [c.isspace()] on code points 0..255: TAB..CR, FS..US, space, NEL, NBSP. *)
Definition isspace (c : ascii) : bool :=
  let n := nat_of_ascii c in
  ((9 <=? n) && (n <=? 13)) || ((28 <=? n) && (n <=? 32))
  || (n =? 133) || (n =? 160).

Fixpoint lstrip (s : string) : string :=
  match s with
  | EmptyString => EmptyString
  | String c s' => if isspace c then lstrip s' else s
  end.

Fixpoint rstrip (s : string) : string :=
  match s with
  | EmptyString => EmptyString
  | String c s' =>
      match rstrip s' with
      | EmptyString => if isspace c then EmptyString else String c EmptyString
      | r => String c r
      end
  end.

(** [s.strip()] *)
Definition strip (s : string) : string := rstrip (lstrip s).

(** [s.split(sep)] for a one-character separator: the maximal segments
    between occurrences of [sep]; never the empty list. *)
Fixpoint split (sep : ascii) (s : string) : list string :=
  match s with
  | EmptyString => [EmptyString]
  | String c s' =>
      if Ascii.eqb c sep then EmptyString :: split sep s'
      else match split sep s' with
           | w :: ws => String c w :: ws
           | [] => [String c EmptyString]
           end
  end.

(** [s.replace(old, '')] for a one-character [old]. *)
Fixpoint remove (old : ascii) (s : string) : string :=
  match s with
  | EmptyString => EmptyString
  | String c s' => if Ascii.eqb c old then remove old s' else String c (remove old s')
  end.

(** [c.lower()] on code points 0..255: A-Z and the capital letters
    U+00C0..U+00DE except the multiplication sign U+00D7. *)
Definition lower_char (c : ascii) : ascii :=
  let n := nat_of_ascii c in
  if ((65 <=? n) && (n <=? 90))
     || ((192 <=? n) && (n <=? 222) && negb (n =? 215))
  then ascii_of_nat (n + 32) else c.

Fixpoint lower (s : string) : string :=
  match s with
  | EmptyString => EmptyString
  | String c s' => String (lower_char c) (lower s')
  end.

(** [x in l] for a list of strings. *)
Definition contains (l : list string) (x : string) : bool :=
  existsb (String.eqb x) l.

(** Truth value of a string: non-empty. *)
Definition truthy (s : string) : bool :=
  match s with EmptyString => false | _ => true end.

(** Number of occurrences of a character. *)
Fixpoint count (c : ascii) (s : string) : nat :=
  match s with
  | EmptyString => 0
  | String a s' => (if Ascii.eqb a c then 1 else 0) + count c s'
  end.

Fixpoint startswith (p s : string) : bool :=
  match p, s with
  | EmptyString, _ => true
  | String a p', String b s' => Ascii.eqb a b && startswith p' s'
  | String _ _, EmptyString => false
  end.

(** What follows the prefix [p] in [s], when [s] starts with [p]. *)
Fixpoint after_prefix (p s : string) : option string :=
  match p, s with
  | EmptyString, _ => Some s
  | String a p', String b s' =>
      if Ascii.eqb a b then after_prefix p' s' else None
  | String _ _, EmptyString => None
  end.

Definition endswith (p s : string) : bool :=
  let n := String.length s - String.length p in
  (String.length p <=? String.length s)
  && String.eqb (substring n (String.length p) s) p.

Fixpoint forallb (f : ascii -> bool) (s : string) : bool :=
  match s with
  | EmptyString => true
  | String c s' => f c && forallb f s'
  end.

End PyStr.

(** ** [re.match('<!--.*-->', s)] *)

Module Re.

Definition newline : ascii := ascii_of_nat 10.

(** The rest of the pattern after the literal [<!--]: [.*-->], where [.]
    is any character but the line feed.  The scan stops with a match at the
    first [-->] and without one at a line feed, which [.*] cannot cross. *)
Fixpoint dotstar_close (s : string) : bool :=
  PyStr.startswith "-->" s
  || match s with
     | EmptyString => false
     | String c s' => negb (Ascii.eqb c newline) && dotstar_close s'
     end.

(** Truth value of [re.match('<!--.*-->', s)]: a match anchored at the
    start of [s], not at its end. *)
Definition match_comment (s : string) : bool :=
  match PyStr.after_prefix "<!--" s with
  | Some s' => dotstar_close s'
  | None => false
  end.

(** What the pattern denotes: [s] is [<!--], then characters other than
    the line feed, then [-->], then anything. *)
Definition matches_comment (s : string) : Prop :=
  exists body rest : string,
    s = ("<!--" ++ body ++ "-->" ++ rest)%string
    /\ PyStr.forallb (fun c => negb (Ascii.eqb c newline)) body = true.

End Re.

(** ** The document tree (BeautifulSoup) *)

(** A node of the parsed tree: a [Tag] with its name, attributes and
    children, or a [NavigableString] holding [str(node)]. *)
#[warnings="-register-all"]
Inductive PageElement : Type :=
| Tag (name : string) (attrs : list (string * string))
      (contents : list PageElement)
| NavigableString (s : string).

(** The [BeautifulSoup] object: the root, whose name is [[document]]. *)
Record BeautifulSoup : Type := { contents : list PageElement }.

Definition document_name : string := "[document]".

(** A text node as [findAll(text=True)] yields it: its string and its
    [parent] reference, of which the program reads only [name].  [None] is
    a node outside any tree. *)
Record TextNode : Type := {
  parent : option string;
  text : string
}.

(** [d.get(key)] on the attribute dictionary. *)
Fixpoint attr_get (attrs : list (string * string)) (key : string)
  : option string :=
  match attrs with
  | [] => None
  | (k, v) :: rest => if String.eqb k key then Some v else attr_get rest key
  end.

Definition get (e : PageElement) (key : string) : option string :=
  match e with
  | Tag _ attrs _ => attr_get attrs key
  | NavigableString _ => None
  end.

(** The text nodes below a node, in document order (pre-order), each with
    the name of the element that contains it. *)
Fixpoint strings_under (pname : string) (e : PageElement) : list TextNode :=
  match e with
  | NavigableString s => [ {| parent := Some pname; text := s |} ]
  | Tag n _ cs => flat_map (strings_under n) cs
  end.

(** [soup.findAll(text=True)] *)
Definition find_all_text (soup : BeautifulSoup) : list TextNode :=
  flat_map (strings_under document_name) (contents soup).

(** The tags called [name] at or below a node, in document order. *)
Fixpoint tags_named (name : string) (e : PageElement) : list PageElement :=
  match e with
  | NavigableString _ => []
  | Tag n _ cs =>
      (if String.eqb n name then [e] else [])
      ++ flat_map (tags_named name) cs
  end.

(** [soup.find_all(name)] *)
Definition find_all (soup : BeautifulSoup) (name : string) : list PageElement :=
  flat_map (tags_named name) (contents soup).

(** [soup.find(name)], which [soup.title] stands for: the first match or
    None. *)
Definition find (soup : BeautifulSoup) (name : string) : option PageElement :=
  match find_all soup name with
  | [] => None
  | e :: _ => Some e
  end.

(** [tag.string]: the string of a node with a single child that is, or
    leads through single children to, a text node; None otherwise. *)
Fixpoint tag_string (e : PageElement) : option string :=
  match e with
  | NavigableString s => Some s
  | Tag _ _ [c] => tag_string c
  | Tag _ _ _ => None
  end.

(** ** get_meta *)

(** One turn of the loop over the meta tags: the tag is kept, and a tag
    whose name attribute is exactly [keywords] adds the comma-separated
    pieces of its content attribute (the empty string when it has none). *)
Definition get_meta_step (acc : list PageElement * list string)
  (meta_tag : PageElement) : list PageElement * list string :=
  let (all_tags, keywords) := acc in
  let all_tags := all_tags ++ [meta_tag] in
  match get meta_tag "name" with
  | Some "keywords" =>
      let content := match get meta_tag "content" with
                     | Some v => v
                     | None => ""
                     end in
      (all_tags, keywords ++ PyStr.split "," content)
  | _ => (all_tags, keywords)
  end.

Definition get_meta (soup : BeautifulSoup) : list PageElement * list string :=
  let meta_tags := find_all soup "meta" in
  fold_left get_meta_step meta_tags ([], []).

(** ** is_visible *)

Definition ignore : list string :=
  ["head"; "title"; "style"; "script"; "[document]"].

(** [element.parent.name] raises on a node without parent. *)
Definition is_visible (element : TextNode) : result bool :=
  match parent element with
  | None => Raise AttributeError
  | Some name =>
      if PyStr.contains ignore name then Ok false
      else if Re.match_comment (text element) then Ok false
      else Ok true
  end.

(** ** filter_content *)

(** [w.strip().replace(',', '').replace('.', '').lower()] *)
Definition normalize (w : string) : string :=
  PyStr.lower (PyStr.remove "." (PyStr.remove "," (PyStr.strip w))).

(** The loop over the filtered text nodes, with the word list built so
    far.  A node is dropped when the callback rejects it; a kept node whose
    stripped text is empty adds nothing; any other adds one word per segment
    of its stripped text between single spaces. *)
Fixpoint filter_content_loop (content_filter : TextNode -> result bool)
  (page_text : list TextNode) (word_list : list string)
  : result (list string) :=
  match page_text with
  | [] => Ok word_list
  | row :: rest =>
      keep <- content_filter row ;;
      if keep then
        if PyStr.truthy (PyStr.strip (text row)) then
          let words := PyStr.split " " (PyStr.strip (text row)) in
          filter_content_loop content_filter rest
            (word_list ++ map normalize words)
        else filter_content_loop content_filter rest word_list
      else filter_content_loop content_filter rest word_list
  end.

Definition filter_content (soup : BeautifulSoup)
  (content_filter : TextNode -> result bool) : result (list string) :=
  let page_text := find_all_text soup in
  filter_content_loop content_filter page_text [].

(** ** word_tally *)

(** The counting dictionary, entries in insertion order. *)
Definition Dict : Type := list (string * Z).

Fixpoint dict_get (d : Dict) (k : string) : option Z :=
  match d with
  | [] => None
  | (k', v) :: rest => if String.eqb k' k then Some v else dict_get rest k
  end.

(** [d[k] = v]: an existing key keeps its place, a new key goes last. *)
Fixpoint dict_set (d : Dict) (k : string) (v : Z) : Dict :=
  match d with
  | [] => [(k, v)]
  | (k', v') :: rest =>
      if String.eqb k' k then (k', v) :: rest
      else (k', v') :: dict_set rest k v
  end.

(** One turn of the loop: [not word_dict.get(word)] holds for a missing
    key and for a stored zero. *)
Definition word_tally_step (word_dict : Dict) (word : string) : Dict :=
  match dict_get word_dict word with
  | None => dict_set word_dict word 1
  | Some 0%Z => dict_set word_dict word 1
  | Some c => dict_set word_dict word (c + 1)
  end.

Definition word_tally (word_list : list string) : Dict :=
  fold_left word_tally_step word_list [].

(** ** run_report *)

(** The response: the tree parsed from its text and its headers. *)
Record Response : Type := {
  page_data : BeautifulSoup;
  headers : list (string * string)
}.

(** [headers.get(key)]; header names compare without regard to case. *)
Fixpoint headers_get (h : list (string * string)) (key : string)
  : option string :=
  match h with
  | [] => None
  | (k, v) :: rest =>
      if String.eqb (PyStr.lower k) (PyStr.lower key) then Some v
      else headers_get rest key
  end.

Definition is_digit (c : ascii) : bool :=
  (48 <=? nat_of_ascii c) && (nat_of_ascii c <=? 57).

(** Decimal digits, single underscores allowed between two digits. *)
Fixpoint int_digits (s : string) (acc : Z) (after_digit : bool) : option Z :=
  match s with
  | EmptyString => if after_digit then Some acc else None
  | String c s' =>
      if is_digit c then
        int_digits s' (10 * acc + (Z.of_nat (nat_of_ascii c) - 48))%Z true
      else if Ascii.eqb c "_" then
        if after_digit then int_digits s' acc false else None
      else None
  end.

(** The whitespace [int()] skips around the literal: TAB..CR and the
    space, and NEL and NBSP, which it reads as spaces.  The separators
    FS..US, which [str.strip] removes, are not among it. *)
Definition int_space (c : ascii) : bool :=
  let n := nat_of_ascii c in
  ((9 <=? n) && (n <=? 13)) || (n =? 32) || (n =? 133) || (n =? 160).

Fixpoint skip_leading (f : ascii -> bool) (s : string) : string :=
  match s with
  | EmptyString => EmptyString
  | String c s' => if f c then skip_leading f s' else s
  end.

Fixpoint skip_trailing (f : ascii -> bool) (s : string) : string :=
  match s with
  | EmptyString => EmptyString
  | String c s' =>
      match skip_trailing f s' with
      | EmptyString => if f c then EmptyString else String c EmptyString
      | r => String c r
      end
  end.

(** The number of digits of a literal, leading zeros included. *)
Fixpoint digit_count (s : string) : nat :=
  match s with
  | EmptyString => 0
  | String c s' => (if is_digit c then 1 else 0) + digit_count s'
  end.

(** The interpreter's default limit on the digits of a decimal literal
    ([sys.int_info.default_max_str_digits]). *)
Definition max_str_digits : nat := 4300.

(** [int(s)] for a string: surrounding whitespace, an optional sign, then
    the digits, no more of them than the limit. *)
Definition py_int (s : string) : result Z :=
  let t := skip_trailing int_space (skip_leading int_space s) in
  let (sign, body) :=
    match t with
    | String "-" r => ((-1)%Z, r)
    | String "+" r => (1%Z, r)
    | _ => (1%Z, t)
    end in
  if max_str_digits <? digit_count body then Raise ValueError
  else
    match int_digits body 0 false with
    | Some n => Ok (sign * n)%Z
    | None => Raise ValueError
    end.

Record WordCount : Type := { word : string; count : Z }.

(** [sorted(l, key=lambda k: k['count'], reverse=True)]: a stable sort by
    descending count.  An entry is put in front of the first entry of the
    sorted rest whose count is not greater than its own. *)
Fixpoint insert_by_count (x : WordCount) (l : list WordCount)
  : list WordCount :=
  match l with
  | [] => [x]
  | y :: l' =>
      if (count x <? count y)%Z then y :: insert_by_count x l'
      else x :: l
  end.

Definition sorted_by_count (l : list WordCount) : list WordCount :=
  fold_right insert_by_count [] l.

(** What the report prints, in the order of its sections. *)
Record Report : Type := {
  title : option string;          (* None is printed as the text None *)
  size : option Q;                (* None is printed as not found! *)
  meta : list PageElement;
  total_words : nat;
  unique_words : nat;
  most_common : list WordCount;
  keywords_not_in_content : list string;
  hyperlinks : list (option string * option string)
}.

(** [page_data.title.string]: [page_data.title] is None when the tree has
    no title tag, and reading [string] from None raises. *)
Definition page_title (page_data : BeautifulSoup) : result (option string) :=
  match find page_data "title" with
  | Some t => Ok (tag_string t)
  | None => Raise AttributeError
  end.

(** [int(response.headers.get('Content-Length', 0))] *)
Definition content_length (headers : list (string * string)) : result Z :=
  match headers_get headers "Content-Length" with
  | Some v => py_int v
  | None => Ok 0%Z
  end.

(** The integer with a significand of at most 53 bits that is nearest to
    [m > 0], the even significand winning a tie: [m] itself below 2^53. *)
Definition nearest_double (m : Z) : Z :=
  let bits := (Z.log2 m + 1)%Z in
  if (bits <=? 53)%Z then m
  else
    let unit := (2 ^ (bits - 53))%Z in
    let q := (m / unit)%Z in
    let r := (m mod unit)%Z in
    let q' := if (unit <? 2 * r)%Z || ((unit =? 2 * r)%Z && Z.odd q)
              then (q + 1)%Z else q in
    (q' * unit)%Z.

(** [octets / 1024], the true division of two ints: the double nearest to
    the quotient, which is the nearest 53-bit integer over 1024; an
    OverflowError when that is 2^1024 or more. *)
Definition true_divide_1024 (octets : Z) : result Q :=
  if (octets =? 0)%Z then Ok 0%Q
  else
    let k := nearest_double (Z.abs octets) in
    if (1034 <=? Z.log2 k)%Z then Raise OverflowError
    else Ok (inject_Z (Z.sgn octets * k) / 1024)%Q.

(** The test [if size:], which a zero fails: the size to print, or None
    for the line that says it was not found. *)
Definition page_size (size : Q) : option Q :=
  if Qeq_bool size 0 then None else Some size.

(** [[{'word': word, 'count': count} for word, count in word_dict.items()]] *)
Definition word_count_list (word_dict : Dict) : list WordCount :=
  map (fun kv => {| word := fst kv; count := snd kv |}) word_dict.

(** [sorted(word_count_list, key=..., reverse=True)[:5]] *)
Definition five_most_common (word_count_list : list WordCount)
  : list WordCount :=
  firstn 5 (sorted_by_count word_count_list).

(** The loop printing the keywords that are not words of the page: the test
    is on [keyword.lower().strip()], the line shows [keyword.strip()]. *)
Definition not_in_content_step (wordlist : list string) (out : list string)
  (keyword : string) : list string :=
  if negb (PyStr.contains wordlist (PyStr.strip (PyStr.lower keyword)))
  then out ++ [PyStr.strip keyword]
  else out.

Definition not_in_content (wordlist keywords : list string) : list string :=
  fold_left (not_in_content_step wordlist) keywords [].

Definition run_report (response : Response) : result Report :=
  let page_data := page_data response in
  title <- page_title page_data ;;
  octets <- content_length (headers response) ;;
  size <- true_divide_1024 octets ;;
  let (meta, keywords) := get_meta page_data in
  wordlist <- filter_content page_data is_visible ;;
  let word_dict := word_tally wordlist in
  Ok {| title := title;
        size := page_size size;
        meta := meta;
        total_words := List.length wordlist;
        unique_words := List.length word_dict;
        most_common := five_most_common (word_count_list word_dict);
        keywords_not_in_content := not_in_content wordlist keywords;
        hyperlinks :=
          map (fun link => (tag_string link, get link "href"))
              (find_all page_data "a") |}.

(** ** main *)

(** What [requests.get] hands back when it returns: the status code and the
    text of the response, and the response as run_report reads it. *)
Record Reply : Type := {
  status_code : Z;
  reply_text : string;
  reply : Response
}.

(** The call [requests.get(url)]: a reply; an exception derived from
    [Exception], with the name of its type and its message; or one that is
    not, as KeyboardInterrupt and SystemExit are. *)
Inductive Fetch : Type :=
| Fetched (r : Reply)
| Failed (name message : string)
| Interrupted (e : exn).

(** What main prints after its banner. *)
Inductive Printed : Type :=
| ErrorGettingURL (name message : string)
| HTTPError (status_code : Z) (text : string)
| PageReport (report : Report).

(** main, given what [input] does at the prompt (it returns the typed
    line or raises, at the end of the input for one) and the behaviour of
    [requests.get].  The prompt is outside [try]; the request is inside, and
    [except Exception] catches what derives from Exception only; a status
    other than 200 ends the run; exceptions of run_report are not caught. *)
Definition main (typed : result string) (requests_get : string -> Fetch)
  : result Printed :=
  url <- typed ;;
  match requests_get ("http://" ++ url)%string with
  | Failed name message => Ok (ErrorGettingURL name message)
  | Interrupted e => Raise e
  | Fetched r =>
      if negb (status_code r =? 200)%Z
      then Ok (HTTPError (status_code r) (reply_text r))
      else report <- run_report (reply r) ;; Ok (PageReport report)
  end.

(** * Further vocabulary *)

(** [sep.join(l)] for a one-character separator. *)
Fixpoint str_join (sep : ascii) (l : list string) : string :=
  match l with
  | [] => ""
  | [x] => x
  | x :: r => (x ++ String sep (str_join sep r))%string
  end.

(** The words of the text below a node with parent [pname], read off the
    tree in one pass. *)
Fixpoint visible_words (pname : string) (e : PageElement) : list string :=
  match e with
  | NavigableString s =>
      if PyStr.contains ignore pname then []
      else if Re.match_comment s then []
      else if PyStr.truthy (PyStr.strip s)
           then map normalize (PyStr.split " " (PyStr.strip s))
           else []
  | Tag n _ cs => flat_map (visible_words n) cs
  end.

(** The tree without the text that stands directly in an element of the
    ignore list: a node with parent [pname] becomes no node or one. *)
Fixpoint drop_hidden_text (pname : string) (e : PageElement)
  : list PageElement :=
  match e with
  | NavigableString s => if PyStr.contains ignore pname then [] else [e]
  | Tag n attrs cs => [Tag n attrs (flat_map (drop_hidden_text n) cs)]
  end.

Definition drop_hidden (soup : BeautifulSoup) : BeautifulSoup :=
  {| contents := flat_map (drop_hidden_text document_name) (contents soup) |}.

(** A string starts with no whitespace. *)
Definition starts_clean (s : string) : Prop :=
  match s with
  | EmptyString => True
  | String c _ => PyStr.isspace c = false
  end.

(** The sum of the counts of a list of entries. *)
Definition count_sum (l : list WordCount) : Z :=
  fold_right Z.add 0%Z (map count l).

(** A text node stands in no element of the ignore list. *)
Definition parent_shown (row : TextNode) : bool :=
  match parent row with
  | Some name => negb (PyStr.contains ignore name)
  | None => true
  end.

(** The content attribute of a meta tag as get_meta reads it. *)
Definition content_of (meta_tag : PageElement) : string :=
  match get meta_tag "content" with Some v => v | None => "" end.

(** A page about web design, with keywords of two words and with a period. *)
Definition design_page : BeautifulSoup :=
  {| contents :=
       [Tag "html" []
          [Tag "head" []
             [Tag "title" [] [];
              Tag "meta" [("charset", "utf-8")] [];
              Tag "meta"
                [("name", "keywords"); ("content", "Web Design,node.js,WEB ")]
                [];
              Tag "style" [] [NavigableString "p { color: red }"]];
           Tag "body" []
             [Tag "p" [] [NavigableString "Web design with node.js"];
              Tag "a" [("href", "/more")]
                [NavigableString "more web"; Tag "b" [] []];
              Tag "a" [] [NavigableString "Web"]]]] |}.

Definition design_response : Response :=
  {| page_data := design_page; headers := [] |}.

(** What normalize guarantees of a segment without space. *)
Definition clean_word (w : string) : Prop :=
  PyStr.count " " w = 0 /\ PyStr.count "," w = 0 /\ PyStr.count "." w = 0
  /\ PyStr.lower w = w.

(** The nodes that contribute words under a callback [content_filter]. *)
Definition kept_by (content_filter : TextNode -> result bool)
  (row : TextNode) : bool :=
  match content_filter row with
  | Ok true => PyStr.truthy (PyStr.strip (text row))
  | _ => false
  end.

(** A callback that accepts all source text. *)
Definition all_text (row : TextNode) : result bool := Ok true.

(** A callback that fails on text in a script. *)
Definition no_scripts (row : TextNode) : result bool :=
  match parent row with
  | Some "script" => Raise ValueError
  | _ => Ok true
  end.

(** * Vocabulary of the properties *)

(** The sum of all counts, [sum(d.values())]. *)
Definition dict_sum (d : Dict) : Z := fold_right Z.add 0%Z (map snd d).

(** The count the loop has stored for [w] after the words [l]. *)
Definition occurrences (l : list string) (w : string) : option Z :=
  match count_occ string_dec l w with
  | O => None
  | S n => Some (Z.of_nat (S n))
  end.

(** [a] stands somewhere before [b] in [l]. *)
Definition precedes {A : Type} (a b : A) (l : list A) : Prop :=
  exists l1 l2 l3, l = l1 ++ a :: l2 ++ b :: l3.

(** The index of the first occurrence of [w] in [l]; the length of [l]
    when there is none. *)
Fixpoint first_index (w : string) (l : list string) : nat :=
  match l with
  | [] => 0
  | x :: r => if string_dec x w then 0 else S (first_index w r)
  end.

(** The order of the ranking: [x] may stand before [y]. *)
Definition count_ge (x y : WordCount) : Prop := (count y <= count x)%Z.

(** The entries with count [c], in the order of the list. *)
Definition with_count (c : Z) (l : list WordCount) : list WordCount :=
  filter (fun e => (count e =? c)%Z) l.

(** The characters that normalize removes. *)
Definition comma_or_period (c : ascii) : bool :=
  Ascii.eqb c "," || Ascii.eqb c ".".

(** The nodes that contribute words: accepted by is_visible and not blank. *)
Definition contributes (row : TextNode) : bool :=
  match is_visible row with
  | Ok true => PyStr.truthy (PyStr.strip (text row))
  | _ => false
  end.

(** The words of one contributing node. *)
Definition row_words (row : TextNode) : list string :=
  map normalize (PyStr.split " " (PyStr.strip (text row))).

(** Whether a meta tag declares keywords. *)
Definition is_keywords_tag (meta_tag : PageElement) : bool :=
  match get meta_tag "name" with
  | Some n => String.eqb n "keywords"
  | None => false
  end.

(** The raw keywords of one such tag. *)
Definition tag_keywords (meta_tag : PageElement) : list string :=
  PyStr.split ","
    match get meta_tag "content" with Some v => v | None => "" end.

(** A keyword is listed when its lowered, stripped form is no word. *)
Definition absent (wordlist : list string) (keyword : string) : bool :=
  negb (PyStr.contains wordlist (PyStr.strip (PyStr.lower keyword))).

(** The words of a document and its raw keywords. *)
Definition document_words (soup : BeautifulSoup) : list string :=
  flat_map row_words (filter contributes (find_all_text soup)).

Definition document_keywords (soup : BeautifulSoup) : list string :=
  flat_map tag_keywords (filter is_keywords_tag (find_all soup "meta")).

(** The size shown for a length within the doubles. *)
Definition shown_size (octets : Z) : option Q :=
  match true_divide_1024 octets with
  | Ok size => page_size size
  | Raise _ => None
  end.

(** The report of a response whose title and length were read. *)
Definition report_of (response : Response) (title : option string)
  (octets : Z) : Report :=
  let soup := page_data response in
  let wordlist := document_words soup in
  {| title := title;
     size := shown_size octets;
     meta := find_all soup "meta";
     total_words := List.length wordlist;
     unique_words := List.length (word_tally wordlist);
     most_common := five_most_common (word_count_list (word_tally wordlist));
     keywords_not_in_content :=
       not_in_content wordlist (document_keywords soup);
     hyperlinks :=
       map (fun link => (tag_string link, get link "href"))
           (find_all soup "a") |}.

(** Induction over the tree, with the hypothesis on every child. *)
Section PageElementInduction.

Variable P : PageElement -> Prop.
Hypothesis P_tag : forall n attrs cs, Forall P cs -> P (Tag n attrs cs).
Hypothesis P_string : forall s, P (NavigableString s).

Fixpoint PageElement_tree_ind (e : PageElement) : P e :=
  match e with
  | Tag n attrs cs =>
      P_tag n attrs cs
        ((fix children (l : list PageElement) : Forall P l :=
            match l with
            | [] => Forall_nil P
            | c :: l' => Forall_cons c (PageElement_tree_ind c) (children l')
            end) cs)
  | NavigableString s => P_string s
  end.

End PageElementInduction.

(** ** Example pages *)

(** A page with the body [<p>Cat cat dog.</p>] and the keywords
    [Cat, Bird]. *)
Definition cat_page : BeautifulSoup :=
  {| contents :=
       [Tag "html" []
          [Tag "head" []
             [Tag "title" [] [NavigableString "Cats"];
              Tag "meta" [("name", "keywords"); ("content", "Cat, Bird")] [];
              Tag "script" [] [NavigableString "var cat = 1;"]];
           Tag "body" [] [Tag "p" [] [NavigableString "Cat cat dog."]]]] |}.

(** A page whose paragraph has two spaces in a row, and no title. *)
Definition spaced_page : BeautifulSoup :=
  {| contents :=
       [Tag "html" []
          [Tag "head" [] [];
           Tag "body" [] [Tag "p" [] [NavigableString "a  b"]]]] |}.

Definition cat_response : Response :=
  {| page_data := cat_page; headers := [("Content-Length", "2048")] |}.


Definition untitled_response : Response :=
  {| page_data := spaced_page; headers := [("Content-Length", "2048")] |}.

(** A word list in which dog and bird both occur twice, dog first. *)
Definition tied_words : list string :=
  ["cat"; "dog"; "cat"; "bird"; "dog"; "emu"; "bird"].

(** * Properties *)

(** ** The counting dictionary *)

Section DictFacts.

Implicit Types (d : Dict) (k w : string) (v c : Z).

Lemma dict_get_set_eq d k v : dict_get (dict_set d k v) k = Some v.
Proof.
  induction d as [|[k' v'] d IH]; simpl.
  - now rewrite String.eqb_refl.
  - destruct (String.eqb k' k) eqn:E; simpl; rewrite E; auto.
Qed.

Lemma dict_get_set_neq d k k' v :
  k <> k' -> dict_get (dict_set d k v) k' = dict_get d k'.
Proof.
  intros Hne. induction d as [|[k0 v0] d IH]; simpl.
  - destruct (String.eqb_spec k k'); congruence.
  - destruct (String.eqb_spec k0 k) as [->|Hk]; simpl.
    + destruct (String.eqb_spec k k'); congruence.
    + now rewrite IH.
Qed.

Lemma dict_get_None d k : dict_get d k = None <-> ~ In k (map fst d).
Proof.
  induction d as [|[k' v'] d IH]; simpl.
  - tauto.
  - destruct (String.eqb_spec k' k) as [->|Hk].
    + split; [discriminate | tauto].
    + rewrite IH. tauto.
Qed.

Lemma dict_get_Some_In d k c : dict_get d k = Some c -> In k (map fst d).
Proof.
  intros H. destruct (in_dec string_dec k (map fst d)) as [|Hn]; auto.
  apply dict_get_None in Hn. congruence.
Qed.

(** A new key is appended. *)
Lemma dict_set_absent d k v :
  dict_get d k = None -> dict_set d k v = d ++ [(k, v)].
Proof.
  induction d as [|[k' v'] d IH]; simpl; auto.
  destruct (String.eqb k' k); [discriminate|].
  intros H. now rewrite IH.
Qed.

(** An existing key keeps its place. *)
Lemma dict_set_present_keys d k v c :
  dict_get d k = Some c -> map fst (dict_set d k v) = map fst d.
Proof.
  induction d as [|[k' v'] d IH]; simpl; [discriminate|].
  destruct (String.eqb k' k); simpl; auto.
  intros H. now rewrite IH.
Qed.

Lemma dict_sum_app d d' : dict_sum (d ++ d') = (dict_sum d + dict_sum d')%Z.
Proof.
  unfold dict_sum. induction d as [|[k v] d IH]; simpl in *; lia.
Qed.

Lemma dict_sum_set_present d k v c :
  dict_get d k = Some c -> dict_sum (dict_set d k v) = (dict_sum d - c + v)%Z.
Proof.
  unfold dict_sum. induction d as [|[k' v'] d IH]; simpl; [discriminate|].
  destruct (String.eqb k' k); simpl.
  - intros [= ->]. lia.
  - intros H. rewrite IH by assumption. lia.
Qed.

End DictFacts.

(** ** word_tally *)

Section WordTally.

Implicit Types (l word_list : list string) (d : Dict) (w k : string).

Lemma word_tally_snoc l w :
  word_tally (l ++ [w]) = word_tally_step (word_tally l) w.
Proof. unfold word_tally. now rewrite fold_left_app. Qed.

Lemma word_tally_get l w : dict_get (word_tally l) w = occurrences l w.
Proof.
  revert w. induction l as [|x l IH] using rev_ind; intros w.
  - reflexivity.
  - rewrite word_tally_snoc. unfold occurrences in *.
    rewrite count_occ_app. simpl.
    unfold word_tally_step.
    destruct (string_dec x w) as [->|Hne].
    + rewrite IH.
      destruct (count_occ string_dec l w) as [|n] eqn:E.
      * now rewrite dict_get_set_eq.
      * destruct (Z.of_nat (S n)) as [|p|p] eqn:Hp; try lia.
        rewrite dict_get_set_eq.
        change (Some (Z.pos p + 1)%Z = Some (Z.of_nat (S (n + 1)))).
        f_equal. lia.
    + assert (Hset : forall v, dict_get (dict_set (word_tally l) x v) w
                               = dict_get (word_tally l) w)
        by (intros; now apply dict_get_set_neq).
      rewrite Nat.add_0_r, <- IH.
      destruct (dict_get (word_tally l) x) as [[| |]|]; apply Hset.
Qed.

Lemma word_tally_step_sum l w :
  dict_sum (word_tally_step (word_tally l) w) = (dict_sum (word_tally l) + 1)%Z.
Proof.
  unfold word_tally_step.
  destruct (dict_get (word_tally l) w) as [c|] eqn:E.
  - assert (c <> 0%Z).
    { rewrite word_tally_get in E. unfold occurrences in E.
      destruct (count_occ string_dec l w); inversion E; lia. }
    destruct c; try congruence;
      erewrite dict_sum_set_present by eassumption; lia.
  - rewrite dict_set_absent, dict_sum_app by assumption.
    unfold dict_sum. simpl. lia.
Qed.

Lemma word_tally_sum l : dict_sum (word_tally l) = Z.of_nat (List.length l).
Proof.
  induction l as [|x l IH] using rev_ind.
  - reflexivity.
  - rewrite word_tally_snoc, word_tally_step_sum, IH, length_app. simpl. lia.
Qed.

(** No turn of the loop lowers a stored count, whatever the dictionary. *)
Lemma word_tally_step_mono d w k c :
  dict_get d k = Some c ->
  exists c', dict_get (word_tally_step d w) k = Some c' /\ (c <= c')%Z.
Proof.
  intros H. unfold word_tally_step.
  destruct (string_dec w k) as [->|Hne].
  - rewrite H. destruct c; rewrite dict_get_set_eq; eexists; split; eauto; lia.
  - exists c. split; [|lia].
    destruct (dict_get d w) as [[| |]|]; now rewrite dict_get_set_neq.
Qed.

Lemma word_tally_loop_mono l d k c :
  dict_get d k = Some c ->
  exists c', dict_get (fold_left word_tally_step l d) k = Some c' /\ (c <= c')%Z.
Proof.
  revert d c. induction l as [|x l IH]; intros d c H; simpl.
  - exists c. split; [assumption | lia].
  - destruct (word_tally_step_mono d x k c H) as (c1 & H1 & Hle).
    destruct (IH _ _ H1) as (c2 & H2 & Hle2).
    exists c2. split; [assumption | lia].
Qed.

(** The keys are the distinct words. *)
Lemma word_tally_keys_In l w : In w (map fst (word_tally l)) <-> In w l.
Proof.
  pose proof (word_tally_get l w) as G. unfold occurrences in G.
  pose proof (count_occ_In string_dec l w) as C.
  pose proof (dict_get_None (word_tally l) w) as N.
  destruct (count_occ string_dec l w) as [|n].
  - split; intros H.
    + exfalso. apply N in G. contradiction.
    + apply C in H. lia.
  - split; intros H.
    + apply C. lia.
    + eapply dict_get_Some_In. eassumption.
Qed.

Lemma word_tally_step_keys d w :
  map fst (word_tally_step d w)
  = if in_dec string_dec w (map fst d) then map fst d else map fst d ++ [w].
Proof.
  unfold word_tally_step.
  destruct (dict_get d w) as [c|] eqn:E.
  - destruct (in_dec string_dec w (map fst d)) as [|Hn].
    + destruct c; eapply dict_set_present_keys; eassumption.
    + apply dict_get_None in Hn. congruence.
  - destruct (in_dec string_dec w (map fst d)) as [Hin|].
    + apply dict_get_None in E. contradiction.
    + rewrite dict_set_absent by assumption. now rewrite map_app.
Qed.

Lemma word_tally_keys_NoDup l : NoDup (map fst (word_tally l)).
Proof.
  induction l as [|x l IH] using rev_ind.
  - constructor.
  - rewrite word_tally_snoc, word_tally_step_keys.
    destruct (in_dec string_dec x (map fst (word_tally l))) as [|Hn]; auto.
    apply NoDup_app; repeat split; auto.
    + constructor; [intros [] | constructor].
    + intros a Ha [<-|[]]. contradiction.
Qed.

Lemma word_tally_length l :
  List.length (word_tally l) = List.length (nodup string_dec l).
Proof.
  rewrite <- (length_map fst).
  apply Permutation_length, NoDup_Permutation.
  - apply word_tally_keys_NoDup.
  - apply NoDup_nodup.
  - intros w. rewrite word_tally_keys_In, nodup_In. tauto.
Qed.

End WordTally.

(** ** Positions in a list *)

Section Order.

Context {A : Type}.

Lemma precedes_In a b (l : list A) : precedes a b l -> In a l /\ In b l.
Proof.
  intros (l1 & l2 & l3 & ->). split.
  - apply in_elt.
  - apply in_or_app. right. right. apply in_elt.
Qed.

Lemma precedes_firstn n a b (l : list A) :
  precedes a b (firstn n l) -> precedes a b l.
Proof.
  intros (l1 & l2 & l3 & H).
  exists l1, l2, (l3 ++ skipn n l).
  rewrite <- (firstn_skipn n l) at 1. rewrite H.
  now rewrite <- !app_assoc, <- !app_comm_cons, <- app_assoc.
Qed.

Lemma precedes_filter f a b (l : list A) :
  f a = true -> f b = true -> precedes a b l -> precedes a b (filter f l).
Proof.
  intros Ha Hb (l1 & l2 & l3 & ->).
  exists (filter f l1), (filter f l2), (filter f l3).
  rewrite filter_app. simpl. rewrite Ha, filter_app. simpl. now rewrite Hb.
Qed.

Lemma filter_eq_split f (l : list A) l1 a r :
  filter f l = l1 ++ a :: r ->
  exists t1 t2, l = t1 ++ a :: t2 /\ filter f t1 = l1 /\ filter f t2 = r.
Proof.
  revert l1. induction l as [|x l IH]; intros l1 H; simpl in H.
  - destruct l1; discriminate.
  - destruct (f x) eqn:E.
    + destruct l1 as [|y l1]; simpl in H; injection H as Hx H; subst x.
      * exists [], l. simpl. auto.
      * destruct (IH _ H) as (t1 & t2 & -> & H1 & H2).
        exists (y :: t1), t2. simpl. rewrite E, H1. auto.
    + destruct (IH _ H) as (t1 & t2 & -> & H1 & H2).
      exists (x :: t1), t2. simpl. rewrite E. auto.
Qed.

Lemma precedes_of_filter f a b (l : list A) :
  precedes a b (filter f l) -> precedes a b l.
Proof.
  intros (l1 & l2 & l3 & H).
  apply filter_eq_split in H as (t1 & t2 & -> & _ & H).
  apply filter_eq_split in H as (t3 & t4 & -> & _ & _).
  now exists t1, t3, t4.
Qed.

Lemma precedes_snoc a b (l : list A) z :
  precedes a b (l ++ [z]) -> precedes a b l \/ (In a l /\ b = z).
Proof.
  intros (l1 & l2 & l3 & H).
  destruct l3 as [|y l3 _] using rev_ind.
  - right.
    change (l ++ [z] = l1 ++ a :: l2 ++ [b]) in H.
    rewrite app_comm_cons, app_assoc in H.
    apply app_inj_tail in H as [-> ->].
    split; auto. apply in_or_app. right. now left.
  - left.
    rewrite (app_comm_cons l3 [y] b), (app_assoc l2), app_comm_cons,
      (app_assoc l1) in H.
    apply app_inj_tail in H as [-> _].
    now exists l1, l2, l3.
Qed.

End Order.

Lemma precedes_map {A B : Type} (g : A -> B) a b (l : list A) :
  precedes a b l -> precedes (g a) (g b) (map g l).
Proof.
  intros (l1 & l2 & l3 & ->).
  exists (map g l1), (map g l2), (map g l3).
  now rewrite map_app, map_cons, map_app, map_cons.
Qed.

Section FirstIndex.

Implicit Types (l : list string) (w : string).

Lemma first_index_In w l : In w l -> first_index w l < List.length l.
Proof.
  induction l as [|x l IH]; simpl; [tauto|].
  destruct (string_dec x w); [lia|].
  intros [H|H]; [contradiction|]. apply IH in H. lia.
Qed.

Lemma first_index_app_In w l l' :
  In w l -> first_index w (l ++ l') = first_index w l.
Proof.
  induction l as [|x l IH]; simpl; [tauto|].
  destruct (string_dec x w); auto.
  intros [H|H]; [contradiction|]. now rewrite IH.
Qed.

Lemma first_index_app_notin w l l' :
  ~ In w l -> first_index w (l ++ l') = List.length l + first_index w l'.
Proof.
  induction l as [|x l IH]; simpl; auto.
  destruct (string_dec x w); [tauto|].
  intros H. rewrite IH; tauto.
Qed.

(** The dictionary lists its keys in the order of their first occurrence
    in the word list. *)
Lemma word_tally_keys_order l w1 w2 :
  precedes w1 w2 (map fst (word_tally l)) ->
  first_index w1 l < first_index w2 l.
Proof.
  induction l as [|x l IH] using rev_ind; intros H.
  - destruct H as ([|? ?] & ? & ? & H); discriminate.
  - rewrite word_tally_snoc, word_tally_step_keys in H.
    destruct (in_dec string_dec x (map fst (word_tally l))) as [Hin|Hn].
    + destruct (precedes_In _ _ _ H) as [I1 I2].
      apply (proj1 (word_tally_keys_In _ _)) in I1, I2.
      rewrite (first_index_app_In w1), (first_index_app_In w2); auto.
    + apply precedes_snoc in H as [H|[H ->]].
      * destruct (precedes_In _ _ _ H) as [I1 I2].
        apply (proj1 (word_tally_keys_In _ _)) in I1, I2.
        rewrite (first_index_app_In w1), (first_index_app_In w2); auto.
      * rewrite word_tally_keys_In in H, Hn.
        rewrite first_index_app_In by assumption.
        rewrite first_index_app_notin by assumption.
        pose proof (first_index_In _ _ H). lia.
Qed.

End FirstIndex.

(** ** The descending stable sort *)

Section SortedByCount.

Implicit Types (x y : WordCount) (l s : list WordCount) (c : Z).

Lemma insert_by_count_perm x l : Permutation (x :: l) (insert_by_count x l).
Proof.
  induction l as [|y l IH]; simpl; auto.
  destruct (count x <? count y)%Z; auto.
  rewrite perm_swap. now constructor.
Qed.

Lemma sorted_by_count_perm l : Permutation l (sorted_by_count l).
Proof.
  induction l as [|x l IH]; simpl; auto.
  rewrite <- insert_by_count_perm. now constructor.
Qed.

Lemma sorted_by_count_length l :
  List.length (sorted_by_count l) = List.length l.
Proof. symmetry. apply Permutation_length, sorted_by_count_perm. Qed.

Lemma insert_by_count_sorted x l :
  Sorted count_ge l -> Sorted count_ge (insert_by_count x l).
Proof.
  induction 1 as [|y l Hs IH Hd]; simpl.
  - repeat constructor.
  - destruct (Z.ltb_spec (count x) (count y)).
    + constructor; auto.
      destruct l as [|z l]; simpl in *.
      * constructor. unfold count_ge. lia.
      * destruct (Z.ltb_spec (count x) (count z)).
        -- constructor. now inversion Hd.
        -- constructor. unfold count_ge. lia.
    + constructor.
      * now constructor.
      * constructor. unfold count_ge. lia.
Qed.

Lemma sorted_by_count_sorted l : StronglySorted count_ge (sorted_by_count l).
Proof.
  apply Sorted_StronglySorted.
  - intros x y z. unfold count_ge. lia.
  - induction l; simpl; [constructor | now apply insert_by_count_sorted].
Qed.

(** Stability: an entry is put in front of the entries with its count. *)
Lemma insert_by_count_with_count c x l :
  with_count c (insert_by_count x l)
  = if (count x =? c)%Z then x :: with_count c l else with_count c l.
Proof.
  unfold with_count. induction l as [|y l IH]; simpl.
  - reflexivity.
  - destruct (Z.ltb_spec (count x) (count y)); simpl.
    + rewrite IH.
      destruct (Z.eqb_spec (count x) c), (Z.eqb_spec (count y) c);
        auto; lia.
    + reflexivity.
Qed.

Lemma sorted_by_count_stable c l :
  with_count c (sorted_by_count l) = with_count c l.
Proof.
  induction l as [|x l IH]; simpl; auto.
  rewrite insert_by_count_with_count, IH. reflexivity.
Qed.

Lemma with_count_In c x l : In x (with_count c l) <-> In x l /\ count x = c.
Proof. unfold with_count. rewrite filter_In, Z.eqb_eq. tauto. Qed.

(** A stable descending sort has one possible result: any list sorted by
    non-increasing count that keeps, count by count, the entries of [l] in
    their order is [sorted_by_count l]. *)
Lemma stable_sorted_unique s s' :
  StronglySorted count_ge s -> StronglySorted count_ge s' ->
  (forall c, with_count c s = with_count c s') -> s = s'.
Proof.
  intros Hs. revert s'.
  induction Hs as [|a s Hs IH Ha]; intros s' Hs' H.
  - destruct s' as [|b s']; auto.
    specialize (H (count b)). unfold with_count in H. simpl in H.
    rewrite Z.eqb_refl in H. discriminate.
  - destruct s' as [|b s'].
    + specialize (H (count a)). unfold with_count in H. simpl in H.
      rewrite Z.eqb_refl in H. discriminate.
    + inversion Hs' as [|? ? Hs'' Hb]; subst.
      assert (Hab : count a = count b).
      { assert (In b (a :: s)) as [->|Hin]; auto.
        { eapply with_count_In. rewrite H. apply with_count_In.
          split; [now left | reflexivity]. }
        assert (In a (b :: s')) as [->|Hin']; auto.
        { eapply with_count_In. rewrite <- H. apply with_count_In.
          split; [now left | reflexivity]. }
        rewrite Forall_forall in Ha, Hb.
        apply Ha in Hin. apply Hb in Hin'. unfold count_ge in *. lia. }
      assert (a = b).
      { specialize (H (count a)). unfold with_count in H. simpl in H.
        rewrite <- Hab, Z.eqb_refl in H. congruence. }
      subst b. f_equal. apply IH; auto.
      intros c. specialize (H c). unfold with_count in *. simpl in H.
      destruct (count a =? c)%Z; congruence.
Qed.

Lemma sorted_by_count_unique l s :
  StronglySorted count_ge s ->
  (forall c, with_count c s = with_count c l) ->
  s = sorted_by_count l.
Proof.
  intros Hs H. apply stable_sorted_unique; auto.
  - apply sorted_by_count_sorted.
  - intros c. now rewrite sorted_by_count_stable.
Qed.

Lemma StronglySorted_firstn n l :
  StronglySorted count_ge l -> StronglySorted count_ge (firstn n l).
Proof.
  intros H. revert n. induction H as [|a l Hs IH Ha]; intros [|n]; simpl;
    try constructor; auto.
  rewrite Forall_forall in *. intros x Hx. apply Ha.
  rewrite <- (firstn_skipn n l). apply in_or_app. now left.
Qed.

End SortedByCount.

(** ** Strings *)

Section StringFacts.

Implicit Types (s p : string) (c : ascii).

(** [split] returns one segment more than there are separators: no
    segment, empty or not, is dropped. *)
Lemma split_length c s :
  List.length (PyStr.split c s) = S (PyStr.count c s).
Proof.
  induction s as [|a s IH]; simpl; auto.
  destruct (Ascii.eqb a c); simpl.
  - now rewrite IH.
  - destruct (PyStr.split c s); simpl in *; lia.
Qed.

Lemma split_empty c : PyStr.split c "" = [""].
Proof. reflexivity. Qed.

Lemma lower_empty s : PyStr.lower s = "" <-> s = "".
Proof. destruct s; simpl; split; congruence. Qed.

(** Removing commas and periods leaves nothing exactly when there was
    nothing else. *)
Lemma remove_punctuation_empty s :
  PyStr.remove "." (PyStr.remove "," s) = ""
  <-> PyStr.forallb comma_or_period s = true.
Proof.
  unfold comma_or_period.
  induction s as [|a s IH]; simpl.
  - tauto.
  - destruct (Ascii.eqb a ","); simpl; auto.
    destruct (Ascii.eqb a "."); simpl; auto.
    split; discriminate.
Qed.

Lemma normalize_empty s :
  normalize s = ""
  <-> PyStr.forallb comma_or_period (PyStr.strip s) = true.
Proof.
  unfold normalize. rewrite lower_empty. apply remove_punctuation_empty.
Qed.

Lemma startswith_spec p s :
  PyStr.startswith p s = true <-> exists rest, s = (p ++ rest)%string.
Proof.
  revert s. induction p as [|a p IH]; intros s; simpl.
  - split; eauto.
  - destruct s as [|b s].
    + split; [discriminate | intros [? ?]; discriminate].
    + rewrite andb_true_iff, Ascii.eqb_eq, IH. split.
      * intros [-> [rest ->]]. eauto.
      * intros [rest [= -> ->]]. eauto.
Qed.

Lemma after_prefix_spec p s r :
  PyStr.after_prefix p s = Some r <-> s = (p ++ r)%string.
Proof.
  revert s. induction p as [|a p IH]; intros s; simpl.
  - split; congruence.
  - destruct s as [|b s]; [split; discriminate|].
    destruct (Ascii.eqb_spec a b) as [->|Hne].
    + rewrite IH. split; congruence.
    + split; [discriminate | congruence].
Qed.

End StringFacts.

(** ** The pattern of is_visible *)

Section CommentPattern.

Let not_newline (c : ascii) : bool := negb (Ascii.eqb c Re.newline).

Lemma dotstar_close_eq s :
  Re.dotstar_close s
  = PyStr.startswith "-->" s
    || match s with
       | EmptyString => false
       | String c s' => not_newline c && Re.dotstar_close s'
       end.
Proof. destruct s; reflexivity. Qed.

Lemma dotstar_close_spec s :
  Re.dotstar_close s = true
  <-> exists body rest : string,
        s = (body ++ "-->" ++ rest)%string
        /\ PyStr.forallb not_newline body = true.
Proof.
  split.
  - induction s as [|c s IH]; rewrite dotstar_close_eq.
    + discriminate.
    + intros H. apply orb_true_iff in H as [H|H].
      * apply (startswith_spec "-->") in H as [rest ->].
        exists "", rest. auto.
      * apply andb_true_iff in H as [Hc H].
        destruct (IH H) as (body & rest & -> & Hb).
        exists (String c body), rest.
        cbn [PyStr.forallb String.append]. rewrite Hc. auto.
  - intros (body & rest & -> & Hb). induction body as [|c body IH].
    + rewrite dotstar_close_eq.
      apply orb_true_iff. left. apply startswith_spec. now exists rest.
    + cbn [PyStr.forallb] in Hb. apply andb_true_iff in Hb as [Hc Hb].
      change (String c body ++ "-->" ++ rest)%string
        with (String c (body ++ "-->" ++ rest)).
      rewrite dotstar_close_eq, Hc, (IH Hb). apply orb_true_r.
Qed.

(** The scan decides the pattern [<!--.*-->] at the start of the string. *)
Lemma match_comment_spec s :
  Re.match_comment s = true <-> Re.matches_comment s.
Proof.
  unfold Re.matches_comment, Re.match_comment. split.
  - destruct (PyStr.after_prefix "<!--" s) as [s'|] eqn:E; [|discriminate].
    apply after_prefix_spec in E as ->.
    intros H. apply dotstar_close_spec in H as (body & rest & -> & Hb).
    exists body, rest. auto.
  - intros (body & rest & -> & Hb).
    rewrite (proj2 (after_prefix_spec "<!--" _ (body ++ "-->" ++ rest)))
      by reflexivity.
    apply dotstar_close_spec. eauto.
Qed.

End CommentPattern.

(** ** The document tree *)

Section Traversal.

(** Every text node found below an element has a parent. *)
Lemma strings_under_parent e :
  forall pname row, In row (strings_under pname e) -> parent row <> None.
Proof.
  induction e as [n attrs cs IH|s] using PageElement_tree_ind;
    intros pname row H; simpl in H.
  - apply in_flat_map in H as (c & Hc & H).
    rewrite Forall_forall in IH. eapply IH; eassumption.
  - destruct H as [<-|[]]. discriminate.
Qed.

Lemma find_all_text_parent soup row :
  In row (find_all_text soup) -> parent row <> None.
Proof.
  unfold find_all_text. intros H.
  apply in_flat_map in H as (c & _ & H).
  eapply strings_under_parent; eassumption.
Qed.

(** The tags found by name carry that name. *)
Lemma tags_named_name name e :
  forall t, In t (tags_named name e) ->
  exists attrs cs, t = Tag name attrs cs.
Proof.
  induction e as [n attrs cs IH|s] using PageElement_tree_ind;
    intros t H; simpl in H; [|contradiction].
  apply in_app_or in H as [H|H].
  - destruct (String.eqb_spec n name) as [->|]; [|contradiction].
    destruct H as [<-|[]]. eauto.
  - apply in_flat_map in H as (c & Hc & H).
    rewrite Forall_forall in IH. eapply IH; eassumption.
Qed.

End Traversal.

(** ** is_visible and filter_content *)

Section FilterContent.

Lemma is_visible_total element :
  parent element <> None -> exists b, is_visible element = Ok b.
Proof.
  unfold is_visible. destruct (parent element) as [name|]; [|congruence].
  intros _.
  destruct (PyStr.contains ignore name); eauto.
  destruct (Re.match_comment (text element)); eauto.
Qed.

Lemma filter_content_loop_ok page_text :
  (forall row, In row page_text -> parent row <> None) ->
  forall word_list,
    filter_content_loop is_visible page_text word_list
    = Ok (word_list ++ flat_map row_words (filter contributes page_text)).
Proof.
  induction page_text as [|row rest IH]; intros Hp word_list; simpl.
  - now rewrite app_nil_r.
  - destruct (is_visible_total row) as [b Hb]; [apply Hp; now left|].
    unfold contributes at 1. rewrite Hb. simpl.
    assert (Hrest : forall r, In r rest -> parent r <> None)
      by (intros; apply Hp; now right).
    destruct b; [|now apply IH].
    destruct (PyStr.truthy (PyStr.strip (text row))); [|now apply IH].
    rewrite IH by assumption. simpl. fold (row_words row).
    now rewrite app_assoc.
Qed.

(** filter_content never raises on a document: its words are those of the
    contributing nodes, in document order. *)
Lemma filter_content_ok soup :
  filter_content soup is_visible
  = Ok (flat_map row_words (filter contributes (find_all_text soup))).
Proof.
  unfold filter_content.
  rewrite filter_content_loop_ok; [reflexivity|].
  intros row. apply find_all_text_parent.
Qed.

Lemma row_words_length row :
  List.length (row_words row) = S (PyStr.count " " (PyStr.strip (text row))).
Proof. unfold row_words. now rewrite length_map, split_length. Qed.

End FilterContent.

(** ** get_meta and the keywords *)

Section Keywords.

Lemma get_meta_step_spec all_tags keywords meta_tag :
  get_meta_step (all_tags, keywords) meta_tag
  = (all_tags ++ [meta_tag],
     keywords ++ if is_keywords_tag meta_tag then tag_keywords meta_tag
                 else []).
Proof.
  unfold get_meta_step, is_keywords_tag, tag_keywords.
  destruct (get meta_tag "name") as [n|]; [|now rewrite app_nil_r].
  destruct (String.eqb_spec n "keywords") as [->|Hne]; [reflexivity|].
  rewrite app_nil_r.
  destruct n as [|a0 n]; auto.
  repeat match goal with
         | |- context [match ?a with Ascii _ _ _ _ _ _ _ _ => _ end] =>
             destruct a as [[] [] [] [] [] [] [] []]; auto
         | |- context [match ?s with EmptyString => _ | String _ _ => _ end] =>
             destruct s; auto
         end.
  congruence.
Qed.

Lemma get_meta_loop meta_tags :
  forall all_tags keywords,
    fold_left get_meta_step meta_tags (all_tags, keywords)
    = (all_tags ++ meta_tags,
       keywords
       ++ flat_map tag_keywords (filter is_keywords_tag meta_tags)).
Proof.
  induction meta_tags as [|m l IH]; intros all_tags keywords;
    cbn [fold_left].
  - now rewrite !app_nil_r.
  - rewrite get_meta_step_spec, IH, <- !app_assoc. cbn [filter app].
    destruct (is_keywords_tag m); cbn [flat_map app];
      now rewrite ?app_assoc.
Qed.

Lemma get_meta_spec soup :
  get_meta soup
  = (find_all soup "meta",
     flat_map tag_keywords (filter is_keywords_tag (find_all soup "meta"))).
Proof. unfold get_meta. now rewrite get_meta_loop. Qed.

Lemma not_in_content_loop wordlist keywords :
  forall out,
    fold_left (not_in_content_step wordlist) keywords out
    = out ++ map PyStr.strip (filter (absent wordlist) keywords).
Proof.
  induction keywords as [|k l IH]; intros out; simpl.
  - now rewrite app_nil_r.
  - rewrite IH. unfold not_in_content_step, absent.
    destruct (negb _); simpl; now rewrite <- ?app_assoc.
Qed.

Lemma not_in_content_spec wordlist keywords :
  not_in_content wordlist keywords
  = map PyStr.strip (filter (absent wordlist) keywords).
Proof. unfold not_in_content. now rewrite not_in_content_loop. Qed.

Lemma contains_In l x : PyStr.contains l x = true <-> In x l.
Proof.
  unfold PyStr.contains. rewrite existsb_exists. split.
  - intros (y & Hy & E). apply String.eqb_eq in E. now subst.
  - intros H. exists x. split; auto. apply String.eqb_refl.
Qed.

End Keywords.

(** ** run_report *)

Section RunReport.

(** run_report raises only where it reads the title or the length. *)
Lemma run_report_spec response :
  run_report response
  = (title <- page_title (page_data response) ;;
     octets <- content_length (headers response) ;;
     _ <- true_divide_1024 octets ;;
     Ok (report_of response title octets)).
Proof.
  unfold run_report, report_of, shown_size, document_words,
    document_keywords.
  destruct (page_title (page_data response)) as [t|e]; cbn [bind]; auto.
  destruct (content_length (headers response)) as [n|e]; cbn [bind]; auto.
  destruct (true_divide_1024 n) as [q|e]; cbn [bind]; auto.
  now rewrite get_meta_spec, filter_content_ok.
Qed.

Lemma run_report_Ok response rep :
  run_report response = Ok rep
  <-> exists title octets,
        page_title (page_data response) = Ok title
        /\ content_length (headers response) = Ok octets
        /\ (exists size, true_divide_1024 octets = Ok size)
        /\ rep = report_of response title octets.
Proof.
  rewrite run_report_spec. split.
  - destruct (page_title (page_data response)) as [t|e]; cbn [bind];
      [|discriminate].
    destruct (content_length (headers response)) as [n|e]; cbn [bind];
      [|discriminate].
    intros Hrun. remember (true_divide_1024 n) as d eqn:Hq.
    destruct d as [q|e]; cbn [bind] in Hrun; [|discriminate].
    injection Hrun as <-. exists t, n. eauto.
  - intros (t & n & -> & -> & [q Hq] & ->). cbn [bind].
    now rewrite Hq.
Qed.

(** Without a title tag nothing is reported. *)
Lemma run_report_title_required response :
  find (page_data response) "title" = None ->
  run_report response = Raise AttributeError.
Proof.
  intros H. rewrite run_report_spec. unfold page_title. now rewrite H.
Qed.



(** Rounding stays above the leading power of two and within half a unit
    in the last place. *)
Lemma nearest_double_bounds m :
  (0 < m)%Z ->
  (2 ^ Z.log2 m <= nearest_double m)%Z
  /\ (Z.abs (nearest_double m - m) * 2 ^ 53 <= m)%Z.
Proof.
  intros Hpos. unfold nearest_double.
  destruct (Z.log2_spec m Hpos) as [Hlo Hhi].
  destruct (Z.leb_spec (Z.log2 m + 1) 53) as [Hb|Hb].
  - split; [lia|]. replace (m - m)%Z with 0%Z by lia. simpl. lia.
  - set (u := (2 ^ (Z.log2 m + 1 - 53))%Z).
    assert (Hu : (0 < u)%Z) by (apply Z.pow_pos_nonneg; lia).
    assert (Hlow : (2 ^ Z.log2 m = u * 2 ^ 52)%Z).
    { unfold u. rewrite <- Z.pow_add_r by lia. f_equal. lia. }
    assert (Hq : (2 ^ 52 <= m / u)%Z)
      by (apply Z.div_le_lower_bound; lia).
    pose proof (Z.div_mod m u ltac:(lia)) as Hdm.
    pose proof (Z.mod_pos_bound m u Hu) as Hr.
    set (q := (m / u)%Z) in *. set (r := (m mod u)%Z) in *.
    rewrite Hlow in *.
    assert (Hpow52 : (2 ^ 52 = 4503599627370496)%Z) by reflexivity.
    assert (Hpow53 : (2 ^ 53 = 9007199254740992)%Z) by reflexivity.
    rewrite Hpow52 in *. rewrite Hpow53.
    assert (Hqu : (u * 4503599627370496 <= u * q)%Z)
      by (apply Z.mul_le_mono_nonneg_l; lia).
    destruct ((u <? 2 * r)%Z || ((u =? 2 * r)%Z && Z.odd q)) eqn:Hup.
    + assert (Hhalf : (u <= 2 * r)%Z).
      { apply orb_true_iff in Hup as [Hup|Hup].
        - apply Z.ltb_lt in Hup. lia.
        - apply andb_true_iff in Hup as [Hup _].
          apply Z.eqb_eq in Hup. lia. }
      replace ((q + 1) * u)%Z with (u * q + u)%Z by ring.
      split; lia.
    + assert (Hhalf : (2 * r <= u)%Z).
      { apply orb_false_iff in Hup as [Hup _].
        apply Z.ltb_ge in Hup. lia. }
      replace (q * u)%Z with (u * q)%Z by ring.
      split; lia.
Qed.

Lemma nearest_double_pos m : (0 < m)%Z -> (0 < nearest_double m)%Z.
Proof.
  intros H. destruct (nearest_double_bounds m H) as [Hlo _].
  assert (0 < 2 ^ Z.log2 m)%Z
    by (apply Z.pow_pos_nonneg; [lia | apply Z.log2_nonneg]).
  lia.
Qed.

(** The division returns only for lengths below 2^1034. *)
Lemma true_divide_1024_range octets size :
  true_divide_1024 octets = Ok size -> (Z.abs octets < 2 ^ 1034)%Z.
Proof.
  unfold true_divide_1024.
  destruct (Z.eqb_spec octets 0) as [->|Hne]; [reflexivity|].
  destruct (Z.leb_spec 1034 (Z.log2 (nearest_double (Z.abs octets))))
    as [Hov|Hin]; [discriminate|].
  intros _.
  assert (Hpos : (0 < Z.abs octets)%Z) by lia.
  destruct (nearest_double_bounds _ Hpos) as [Hlo _].
  pose proof (nearest_double_pos _ Hpos) as Hk.
  apply Z.log2_lt_pow2 in Hin; [|assumption].
  destruct (Z.log2_spec _ Hpos) as [_ Hhi].
  destruct (Z.lt_ge_cases (Z.abs octets) (2 ^ 1034)) as [|Hge]; auto.
  exfalso.
  apply Z.log2_le_pow2 in Hge; [|assumption].
  assert (2 ^ 1034 <= 2 ^ Z.log2 (Z.abs octets))%Z
    by (apply Z.pow_le_mono_r; lia).
  lia.
Qed.


End RunReport.

(** * The claims *)

(** C1: for every word list, word_tally maps each word of the list to a
    count of at least 1; no count stored after a prefix of the list is lower
    at the end (counts are never decremented); the counts sum to the length
    of the list, empty words included; the keys are distinct and there are as
    many as distinct words in the list. *)
Theorem word_tally_counts (word_list : list string) :
  (forall w, In w word_list ->
     exists c, dict_get (word_tally word_list) w = Some c /\ (1 <= c)%Z)
  /\ (forall seen rest k c,
        word_list = seen ++ rest ->
        dict_get (word_tally seen) k = Some c ->
        exists c', dict_get (word_tally word_list) k = Some c' /\ (c <= c')%Z)
  /\ dict_sum (word_tally word_list) = Z.of_nat (List.length word_list)
  /\ NoDup (map fst (word_tally word_list))
  /\ List.length (word_tally word_list)
     = List.length (nodup string_dec word_list).
Proof.
  repeat split.
  - intros w Hin. rewrite word_tally_get. unfold occurrences.
    apply (count_occ_In string_dec) in Hin.
    destruct (count_occ string_dec word_list w) as [|n]; [lia|].
    eexists. split; [reflexivity | lia].
  - intros seen rest k c -> H. unfold word_tally at 1.
    rewrite fold_left_app. now apply word_tally_loop_mono.
  - apply word_tally_sum.
  - apply word_tally_keys_NoDup.
  - apply word_tally_length.
Qed.

(** C2: when a report is produced, the word list is made of the words of
    the visible text nodes with non-empty stripped text, in document order;
    each such node gives one word per segment of its stripped text between
    single spaces, so one more than it has spaces, every segment being kept
    after normalisation, the empty ones too; and the total word count of the
    report is the length of that list. *)
Theorem filter_content_words (response : Response) (rep : Report)
  (H : run_report response = Ok rep) :
  let rows := filter contributes (find_all_text (page_data response)) in
  let wordlist := flat_map row_words rows in
  filter_content (page_data response) is_visible = Ok wordlist
  /\ (forall row,
        In row rows <->
        In row (find_all_text (page_data response))
        /\ is_visible row = Ok true
        /\ PyStr.strip (text row) <> "")
  /\ (forall row segment,
        In row rows ->
        In segment (PyStr.split " " (PyStr.strip (text row))) ->
        In (normalize segment) wordlist)
  /\ (forall row,
        List.length (row_words row)
        = S (PyStr.count " " (PyStr.strip (text row))))
  /\ total_words rep = List.length wordlist.
Proof.
  intros rows wordlist.
  assert (Hrows : forall row,
             In row rows <->
             In row (find_all_text (page_data response))
             /\ is_visible row = Ok true
             /\ PyStr.strip (text row) <> "").
  { intros row. unfold rows. rewrite filter_In. unfold contributes.
    destruct (is_visible row) as [[]|]; try (intuition congruence).
    destruct (PyStr.strip (text row)); simpl; intuition congruence. }
  split; [apply filter_content_ok|].
  split; [exact Hrows|].
  split; [|split].
  - intros row segment Hrow Hseg. apply in_flat_map. exists row.
    split; auto. unfold row_words. now apply in_map.
  - apply row_words_length.
  - apply run_report_Ok in H as (t & n & _ & _ & _ & ->). reflexivity.
Qed.

Lemma filter_content_words_witness :
  filter_content (page_data cat_response) is_visible
  = Ok ["cat"; "cat"; "dog"]
  /\ total_words (report_of cat_response (Some "Cats") 2048) = 3.
Proof.
  destruct (filter_content_words cat_response
              (report_of cat_response (Some "Cats") 2048) eq_refl)
    as (Hw & _ & _ & _ & Ht).
  split; [exact Hw | exact Ht].
Defined.

(** An empty word between two spaces is kept and counted. *)
Example filter_content_double_space :
  filter_content spaced_page is_visible = Ok ["a"; ""; "b"].
Proof. reflexivity. Qed.

(** C3, as stated: the comment test read as "starts with [<!--] and ends
    with [-->]" is not what is_visible computes; text after the closing
    [-->] does not make a node visible. *)
Lemma is_visible_not_start_and_end :
  ~ (forall element name,
       parent element = Some name ->
       is_visible element
       = Ok (negb (PyStr.contains ignore name)
             && negb (PyStr.startswith "<!--" (text element)
                      && PyStr.endswith "-->" (text element)))).
Proof.
  intros H.
  specialize (H {| parent := Some "p"; text := "<!--x-->y" |} "p" eq_refl).
  discriminate H.
Qed.

(** A comment spanning two lines starts with [<!--] and ends with [-->]
    and is visible all the same. *)
Example is_visible_two_line_comment :
  let s := ("<!--" ++ String Re.newline "-->")%string in
  PyStr.startswith "<!--" s = true /\ PyStr.endswith "-->" s = true
  /\ is_visible {| parent := Some "p"; text := s |} = Ok true.
Proof. repeat split. Qed.

(** C3, amended: for every text node with a parent, is_visible returns
    false if the parent's name is one of head, title, style, script,
    [document]; otherwise false if the text begins with [<!--] followed,
    with no line feed in between, by [-->] (the pattern [<!--.*-->] matched
    at the start of the text, whatever follows); in every other case
    true. *)
Theorem is_visible_spec (element : TextNode) (name : string)
  (H : parent element = Some name) :
  is_visible element
  = Ok (negb (PyStr.contains ignore name)
        && negb (Re.match_comment (text element)))
  /\ (PyStr.contains ignore name = true
      <-> In name ["head"; "title"; "style"; "script"; "[document]"])
  /\ (Re.match_comment (text element) = true
      <-> Re.matches_comment (text element)).
Proof.
  split; [|split].
  - unfold is_visible. rewrite H.
    destruct (PyStr.contains ignore name); auto.
    destruct (Re.match_comment (text element)); auto.
  - apply contains_In.
  - apply match_comment_spec.
Qed.

Lemma is_visible_spec_witness :
  is_visible {| parent := Some "p"; text := "<!--x-->y" |} = Ok false
  /\ is_visible {| parent := Some "p"; text := "Cat cat dog." |} = Ok true
  /\ is_visible {| parent := Some "script"; text := "var cat = 1;" |}
     = Ok false.
Proof.
  split; [|split].
  - exact (proj1 (is_visible_spec
                    {| parent := Some "p"; text := "<!--x-->y" |}
                    "p" eq_refl)).
  - exact (proj1 (is_visible_spec
                    {| parent := Some "p"; text := "Cat cat dog." |}
                    "p" eq_refl)).
  - exact (proj1 (is_visible_spec
                    {| parent := Some "script"; text := "var cat = 1;" |}
                    "script" eq_refl)).
Defined.

(** C4: when a report is produced, the keyword list of get_meta is the
    concatenation, in document order, of the comma-separated pieces of the
    content attribute of every meta tag whose name attribute is keywords,
    the pieces left untrimmed and a missing or empty content giving the one
    keyword [""]; and the keywords reported as not in content are, in
    keyword order and with repetitions, the stripped forms of exactly the
    keywords whose lowered-then-stripped form is not in the word list. *)
Theorem keywords_not_in_content_spec (response : Response) (rep : Report)
  (H : run_report response = Ok rep) :
  let soup := page_data response in
  let keywords := snd (get_meta soup) in
  keywords
  = flat_map
      (fun m => PyStr.split ","
                  match get m "content" with Some v => v | None => "" end)
      (filter (fun m => match get m "name" with
                        | Some n => String.eqb n "keywords"
                        | None => false
                        end)
              (find_all soup "meta"))
  /\ (forall m,
        get m "content" = None \/ get m "content" = Some "" ->
        tag_keywords m = [""])
  /\ exists wordlist,
       filter_content soup is_visible = Ok wordlist
       /\ keywords_not_in_content rep
          = map PyStr.strip (filter (absent wordlist) keywords)
       /\ (forall keyword,
             absent wordlist keyword = true
             <-> ~ In (PyStr.strip (PyStr.lower keyword)) wordlist).
Proof.
  intros soup keywords. unfold keywords, soup. rewrite get_meta_spec.
  split; [reflexivity|]. split.
  - intros m [E|E]; unfold tag_keywords; now rewrite E.
  - exists (document_words (page_data response)).
    split; [apply filter_content_ok|]. split.
    + apply run_report_Ok in H as (t & n & _ & _ & _ & ->).
      apply not_in_content_spec.
    + intros keyword. unfold absent.
      rewrite negb_true_iff, <- not_true_iff_false, contains_In. tauto.
Qed.

Lemma keywords_not_in_content_spec_witness :
  snd (get_meta cat_page) = ["Cat"; " Bird"]
  /\ keywords_not_in_content (report_of cat_response (Some "Cats") 2048)
     = ["Bird"].
Proof.
  destruct (keywords_not_in_content_spec cat_response
              (report_of cat_response (Some "Cats") 2048) eq_refl)
    as (Hk & _ & wordlist & Hw & Hn & _).
  split; [exact Hk|].
  rewrite Hn. injection Hw as <-. reflexivity.
Defined.

(** C5: for every token sequence, the list of the five most common words
    has length min(5, number of distinct tokens), its counts do not
    increase along the list, and its entries are entries of the tally. *)
Theorem five_most_common_spec (wordlist : list string) :
  let top := five_most_common (word_count_list (word_tally wordlist)) in
  List.length top = Nat.min 5 (List.length (nodup string_dec wordlist))
  /\ List.length top = Nat.min 5 (List.length (word_tally wordlist))
  /\ StronglySorted (fun a b => (count b <= count a)%Z) top
  /\ (forall e, In e top ->
        dict_get (word_tally wordlist) (word e) = Some (count e)).
Proof.
  intros top. unfold top, five_most_common.
  assert (Hlen : List.length
                   (firstn 5 (sorted_by_count
                                (word_count_list (word_tally wordlist))))
                 = Nat.min 5 (List.length (word_tally wordlist))).
  { rewrite length_firstn, sorted_by_count_length.
    unfold word_count_list. now rewrite length_map. }
  split; [now rewrite Hlen, word_tally_length|].
  split; [exact Hlen|]. split.
  - apply StronglySorted_firstn, sorted_by_count_sorted.
  - intros e He.
    assert (Hin : In e (word_count_list (word_tally wordlist))).
    { eapply Permutation_in; [symmetry; apply sorted_by_count_perm|].
      rewrite <- (firstn_skipn 5). apply in_or_app. left. exact He. }
    unfold word_count_list in Hin.
    apply in_map_iff in Hin as ([k v] & <- & Hkv). simpl.
    pose proof (word_tally_keys_NoDup wordlist) as Hnd.
    revert Hnd Hkv. generalize (word_tally wordlist).
    induction d as [|[k' v'] d IH]; simpl; [tauto|].
    intros Hnd [[= -> ->]|Hin].
    + now rewrite String.eqb_refl.
    + inversion Hnd as [|? ? Hk' Hnd']; subst.
      destruct (String.eqb_spec k' k) as [->|]; auto.
      exfalso. apply Hk'. apply in_map_iff. now exists (k, v).
Qed.

(** The example of the specification: two distinct words, two entries. *)
Example five_most_common_cat :
  five_most_common (word_count_list (word_tally ["cat"; "cat"; "dog"]))
  = [ {| word := "cat"; count := 2 |}; {| word := "dog"; count := 1 |} ].
Proof. reflexivity. Qed.

(** C6, as stated: on a text node without parent is_visible does not
    return a boolean. *)
Lemma is_visible_no_parent_raises :
  ~ (forall element,
       parent element = None ->
       is_visible element = Ok (negb (Re.match_comment (text element)))).
Proof.
  intros H. specialize (H {| parent := None; text := "hello" |} eq_refl).
  discriminate H.
Qed.

(** C6, amended: is_visible reads the name of the parent unguarded, so on a
    text node without parent it raises; no such node is among the text
    nodes of a document, on each of which is_visible returns a boolean. *)
Theorem is_visible_no_parent (element : TextNode)
  (H : parent element = None) :
  is_visible element = Raise AttributeError
  /\ (forall soup, ~ In element (find_all_text soup))
  /\ (forall soup row, In row (find_all_text soup) ->
        exists b, is_visible row = Ok b).
Proof.
  split; [|split].
  - unfold is_visible. now rewrite H.
  - intros soup Hin. now apply find_all_text_parent in Hin.
  - intros soup row Hin. apply is_visible_total.
    eapply find_all_text_parent. eassumption.
Qed.

Lemma is_visible_no_parent_witness :
  is_visible {| parent := None; text := "hello" |} = Raise AttributeError.
Proof.
  exact (proj1 (is_visible_no_parent
                  {| parent := None; text := "hello" |} eq_refl)).
Defined.

(** C7: a page without title tag gets no report: reading the title
    raises before anything is printed. *)
Theorem run_report_untitled :
  find (page_data untitled_response) "title" = None
  /\ run_report untitled_response = Raise AttributeError.
Proof. split; reflexivity. Qed.


(** A length above 2^53 that is not a double: the size shown is the
    nearest one. *)
Example shown_size_rounded :
  shown_size (2 ^ 60 + 100) = Some (inject_Z (2 ^ 60) / 1024)%Q.
Proof. reflexivity. Qed.

(** The first length whose quotient is beyond the doubles, and the one
    before it. *)
Example true_divide_1024_overflow :
  true_divide_1024 (2 ^ 1034 - 2 ^ 980) = Raise OverflowError
  /\ true_divide_1024 (2 ^ 1034 - 2 ^ 980 - 1)
     = Ok (inject_Z (2 ^ 1034 - 2 ^ 981) / 1024)%Q.
Proof. split; reflexivity. Qed.



(** C9, as stated: the word list of a page can contain the empty
    string. *)
Lemma filter_content_keeps_empty :
  ~ (forall soup wordlist,
       filter_content soup is_visible = Ok wordlist ->
       ~ In "" wordlist).
Proof.
  intros H. apply (H spaced_page ["a"; ""; "b"] eq_refl).
  right. now left.
Qed.

(** C9, amended: a text node whose stripped text is empty gives no word;
    the words of a page are the normalised segments of the other visible
    nodes, and such a word is empty exactly when its segment, stripped, is
    made of commas and periods only, as the empty segment between two
    spaces is: empty words are kept. *)
Theorem filter_content_empty_words (soup : BeautifulSoup)
  (wordlist : list string)
  (H : filter_content soup is_visible = Ok wordlist) :
  (forall w,
     In w wordlist <->
     exists row segment,
       In row (find_all_text soup)
       /\ is_visible row = Ok true
       /\ PyStr.strip (text row) <> ""
       /\ In segment (PyStr.split " " (PyStr.strip (text row)))
       /\ w = normalize segment)
  /\ (forall segment,
        normalize segment = ""
        <-> PyStr.forallb comma_or_period (PyStr.strip segment) = true).
Proof.
  rewrite filter_content_ok in H. injection H as <-.
  split; [|apply normalize_empty].
  intros w. rewrite in_flat_map. split.
  - intros (row & Hrow & Hw). apply filter_In in Hrow as [Hin Hc].
    unfold row_words in Hw. apply in_map_iff in Hw as (seg & <- & Hseg).
    exists row, seg. unfold contributes in Hc.
    destruct (is_visible row) as [[]|]; try discriminate.
    repeat (split; auto).
    intros E. rewrite E in Hc. discriminate.
  - intros (row & seg & Hin & Hv & Hs & Hseg & ->).
    exists row. split.
    + apply filter_In. split; auto. unfold contributes. rewrite Hv.
      destruct (PyStr.strip (text row)); [congruence | reflexivity].
    + unfold row_words. now apply in_map.
Qed.

Lemma filter_content_empty_words_witness :
  filter_content spaced_page is_visible = Ok ["a"; ""; "b"]
  /\ In "" ["a"; ""; "b"]
  /\ normalize "" = "".
Proof.
  pose proof (filter_content_empty_words spaced_page ["a"; ""; "b"] eq_refl)
    as [Hwords Hempty].
  split; [reflexivity|]. split.
  - apply Hwords.
    exists {| parent := Some "p"; text := "a  b" |}, "".
    split; [simpl; auto|]. split; [reflexivity|].
    split; [discriminate|]. split; [simpl; auto | reflexivity].
  - apply Hempty. reflexivity.
Defined.

(** C10: for every token sequence, when an entry stands before another
    entry with the same count in the list of the five most common words,
    its word occurs first in the token sequence before the other's does:
    the tally lists the words by first occurrence and the sort keeps the
    order of entries with equal counts. *)
Theorem five_most_common_ties (wordlist : list string) (a b : WordCount)
  (Hab : precedes a b
           (five_most_common (word_count_list (word_tally wordlist))))
  (Hcount : count a = count b) :
  word a <> word b
  /\ first_index (word a) wordlist < first_index (word b) wordlist.
Proof.
  assert (Hlt : first_index (word a) wordlist
                < first_index (word b) wordlist).
  { apply word_tally_keys_order.
    unfold five_most_common in Hab. apply precedes_firstn in Hab.
    apply (precedes_filter (fun e => (count e =? count a)%Z)) in Hab;
      [|apply Z.eqb_refl | rewrite Hcount; apply Z.eqb_refl].
    pose proof (sorted_by_count_stable (count a)
                  (word_count_list (word_tally wordlist))) as Hst.
    unfold with_count in Hst. rewrite Hst in Hab.
    apply precedes_of_filter in Hab.
    apply (precedes_map word) in Hab.
    unfold word_count_list in Hab. rewrite map_map in Hab. simpl in Hab.
    exact Hab. }
  split; [|exact Hlt].
  intros E. rewrite E in Hlt. lia.
Qed.

Lemma five_most_common_ties_witness :
  precedes {| word := "dog"; count := 2 |} {| word := "bird"; count := 2 |}
    (five_most_common (word_count_list (word_tally tied_words)))
  /\ first_index "dog" tied_words < first_index "bird" tied_words.
Proof.
  assert (Hp : precedes {| word := "dog"; count := 2 |}
                 {| word := "bird"; count := 2 |}
                 (five_most_common (word_count_list (word_tally tied_words)))).
  { exists [ {| word := "cat"; count := 2 |} ], [],
      [ {| word := "emu"; count := 1 |} ]. reflexivity. }
  split; [exact Hp|].
  exact (proj2 (five_most_common_ties tied_words _ _ Hp eq_refl)).
Defined.

(** * Further properties *)

(** ** Splitting, stripping and lowering *)

Section MoreStringFacts.

Implicit Types (s : string) (c sep : ascii) (l : list string).

Lemma split_nonempty sep s : PyStr.split sep s <> [].
Proof.
  intros E. pose proof (split_length sep s) as H. rewrite E in H.
  discriminate.
Qed.

Lemma str_join_cons sep x l :
  l <> [] -> str_join sep (x :: l) = (x ++ String sep (str_join sep l))%string.
Proof. destruct l; [congruence | reflexivity]. Qed.

Lemma str_join_head sep c w l :
  str_join sep (String c w :: l) = String c (str_join sep (w :: l)).
Proof. destruct l; reflexivity. Qed.

Lemma split_join sep s : str_join sep (PyStr.split sep s) = s.
Proof.
  induction s as [|a s IH]; cbn [PyStr.split]; [reflexivity|].
  destruct (Ascii.eqb_spec a sep) as [->|Hne].
  - rewrite str_join_cons by apply split_nonempty. now rewrite IH.
  - destruct (PyStr.split sep s) as [|w ws] eqn:E.
    + now apply split_nonempty in E.
    + now rewrite str_join_head, IH.
Qed.

Lemma split_no_sep sep s :
  Forall (fun piece => PyStr.count sep piece = 0) (PyStr.split sep s).
Proof.
  induction s as [|a s IH]; cbn [PyStr.split].
  - repeat constructor.
  - destruct (Ascii.eqb a sep) eqn:E.
    + constructor; auto.
    + destruct (PyStr.split sep s) as [|w ws].
      * repeat constructor. simpl. now rewrite E.
      * inversion IH as [|? ? Hw Hws]; subst.
        constructor; auto. simpl. now rewrite E.
Qed.

Lemma count_app c s s' :
  PyStr.count c (s ++ s')%string = PyStr.count c s + PyStr.count c s'.
Proof. induction s as [|a s IH]; simpl; auto. rewrite IH. lia. Qed.

Lemma count_lstrip_le c s : PyStr.count c (PyStr.lstrip s) <= PyStr.count c s.
Proof.
  induction s as [|a s IH]; simpl; auto.
  destruct (PyStr.isspace a); simpl; lia.
Qed.

Lemma count_rstrip_le c s : PyStr.count c (PyStr.rstrip s) <= PyStr.count c s.
Proof.
  induction s as [|a s IH]; simpl; auto.
  destruct (PyStr.rstrip s) as [|b r].
  - destruct (PyStr.isspace a); simpl in *; lia.
  - simpl in *. lia.
Qed.

Lemma count_strip_le c s : PyStr.count c (PyStr.strip s) <= PyStr.count c s.
Proof.
  unfold PyStr.strip.
  pose proof (count_rstrip_le c (PyStr.lstrip s)).
  pose proof (count_lstrip_le c s). lia.
Qed.

(** Only whitespace is stripped. *)
Lemma count_lstrip c s :
  PyStr.isspace c = false -> PyStr.count c (PyStr.lstrip s) = PyStr.count c s.
Proof.
  intros Hc. induction s as [|a s IH]; simpl; auto.
  destruct (PyStr.isspace a) eqn:E; simpl; auto.
  destruct (Ascii.eqb_spec a c) as [->|]; [congruence | auto].
Qed.

Lemma count_rstrip c s :
  PyStr.isspace c = false -> PyStr.count c (PyStr.rstrip s) = PyStr.count c s.
Proof.
  intros Hc. induction s as [|a s IH]; simpl; auto.
  destruct (PyStr.rstrip s) as [|b r].
  - destruct (PyStr.isspace a) eqn:E; simpl in *.
    + destruct (Ascii.eqb_spec a c) as [->|]; [congruence | auto].
    + lia.
  - simpl in *. lia.
Qed.

Lemma count_strip c s :
  PyStr.isspace c = false -> PyStr.count c (PyStr.strip s) = PyStr.count c s.
Proof.
  intros Hc. unfold PyStr.strip. now rewrite count_rstrip, count_lstrip.
Qed.

Lemma count_remove_le c old s :
  PyStr.count c (PyStr.remove old s) <= PyStr.count c s.
Proof.
  induction s as [|a s IH]; simpl; auto.
  destruct (Ascii.eqb a old); simpl; lia.
Qed.

Lemma count_remove_same old s : PyStr.count old (PyStr.remove old s) = 0.
Proof.
  induction s as [|a s IH]; simpl; auto.
  destruct (Ascii.eqb a old) eqn:E; simpl; auto. now rewrite E.
Qed.

(** Lowering changes letters only. *)
Lemma lower_char_space a :
  Ascii.eqb (PyStr.lower_char a) " " = Ascii.eqb a " ".
Proof. destruct a as [[] [] [] [] [] [] [] []]; reflexivity. Qed.

Lemma lower_char_comma a :
  Ascii.eqb (PyStr.lower_char a) "," = Ascii.eqb a ",".
Proof. destruct a as [[] [] [] [] [] [] [] []]; reflexivity. Qed.

Lemma lower_char_period a :
  Ascii.eqb (PyStr.lower_char a) "." = Ascii.eqb a ".".
Proof. destruct a as [[] [] [] [] [] [] [] []]; reflexivity. Qed.

Lemma lower_char_idem a :
  PyStr.lower_char (PyStr.lower_char a) = PyStr.lower_char a.
Proof. destruct a as [[] [] [] [] [] [] [] []]; reflexivity. Qed.

Lemma isspace_lower_char a :
  PyStr.isspace (PyStr.lower_char a) = PyStr.isspace a.
Proof. destruct a as [[] [] [] [] [] [] [] []]; reflexivity. Qed.

Lemma count_lower c s :
  (forall a, Ascii.eqb (PyStr.lower_char a) c = Ascii.eqb a c) ->
  PyStr.count c (PyStr.lower s) = PyStr.count c s.
Proof.
  intros Hc. induction s as [|a s IH]; simpl; auto. now rewrite Hc, IH.
Qed.

Lemma lower_idem s : PyStr.lower (PyStr.lower s) = PyStr.lower s.
Proof.
  induction s as [|a s IH]; simpl; auto. now rewrite lower_char_idem, IH.
Qed.

Lemma lstrip_lower s : PyStr.lstrip (PyStr.lower s) = PyStr.lower (PyStr.lstrip s).
Proof.
  induction s as [|a s IH]; simpl; auto.
  rewrite isspace_lower_char. destruct (PyStr.isspace a); auto.
Qed.

Lemma rstrip_lower s : PyStr.rstrip (PyStr.lower s) = PyStr.lower (PyStr.rstrip s).
Proof.
  induction s as [|a s IH]; simpl; auto.
  rewrite IH, isspace_lower_char.
  destruct (PyStr.rstrip s) as [|b r]; simpl; auto.
  destruct (PyStr.isspace a); auto.
Qed.

Lemma strip_lower s : PyStr.strip (PyStr.lower s) = PyStr.lower (PyStr.strip s).
Proof. unfold PyStr.strip. now rewrite lstrip_lower, rstrip_lower. Qed.

Lemma lstrip_starts_clean s : starts_clean (PyStr.lstrip s).
Proof.
  induction s as [|a s IH]; simpl; auto.
  destruct (PyStr.isspace a) eqn:E; simpl; auto.
Qed.

Lemma lstrip_clean s : starts_clean s -> PyStr.lstrip s = s.
Proof. destruct s as [|a s]; simpl; auto. now intros ->. Qed.

Lemma rstrip_starts_clean s : starts_clean s -> starts_clean (PyStr.rstrip s).
Proof.
  destruct s as [|a s]; simpl; auto. intros Ha.
  destruct (PyStr.rstrip s); simpl; auto. now rewrite Ha.
Qed.

Lemma rstrip_cons a s :
  PyStr.rstrip (String a s)
  = match PyStr.rstrip s with
    | EmptyString =>
        if PyStr.isspace a then EmptyString else String a EmptyString
    | r => String a r
    end.
Proof. reflexivity. Qed.

Lemma rstrip_idem s : PyStr.rstrip (PyStr.rstrip s) = PyStr.rstrip s.
Proof.
  induction s as [|a s IH]; [reflexivity|].
  rewrite rstrip_cons.
  destruct (PyStr.rstrip s) as [|b r] eqn:E.
  - destruct (PyStr.isspace a) eqn:Ha; [reflexivity|].
    rewrite rstrip_cons. simpl. now rewrite Ha.
  - rewrite rstrip_cons, IH. reflexivity.
Qed.

Lemma strip_idem s : PyStr.strip (PyStr.strip s) = PyStr.strip s.
Proof.
  unfold PyStr.strip.
  rewrite (lstrip_clean (PyStr.rstrip (PyStr.lstrip s))).
  - apply rstrip_idem.
  - apply rstrip_starts_clean, lstrip_starts_clean.
Qed.

End MoreStringFacts.

(** ** Lists *)

Section MoreListFacts.

Context {A B : Type}.

Lemma filter_flat_map (f : B -> bool) (g : A -> list B) (l : list A) :
  filter f (flat_map g l) = flat_map (fun a => filter f (g a)) l.
Proof.
  induction l as [|a l IH]; simpl; auto. now rewrite filter_app, IH.
Qed.

Lemma flat_map_flat_map {C : Type} (g : A -> list B) (h : B -> list C)
  (l : list A) :
  flat_map h (flat_map g l) = flat_map (fun a => flat_map h (g a)) l.
Proof.
  induction l as [|a l IH]; simpl; auto. now rewrite flat_map_app, IH.
Qed.

Lemma flat_map_Forall_ext (g h : A -> list B) (l : list A) :
  Forall (fun a => g a = h a) l -> flat_map g l = flat_map h l.
Proof. induction 1 as [|a l E _ IH]; simpl; auto. now rewrite E, IH. Qed.

Lemma filter_map_swap (f : B -> bool) (g : A -> B) (l : list A) :
  filter f (map g l) = map g (filter (fun a => f (g a)) l).
Proof.
  induction l as [|a l IH]; simpl; auto.
  destruct (f (g a)); simpl; now rewrite IH.
Qed.

Lemma filter_filter_implied (f g : A -> bool) (l : list A) :
  (forall a, f a = true -> g a = true) ->
  filter f (filter g l) = filter f l.
Proof.
  intros Himp. induction l as [|a l IH]; simpl; auto.
  destruct (g a) eqn:G; simpl; rewrite IH; auto.
  destruct (f a) eqn:F; auto. apply Himp in F. congruence.
Qed.

End MoreListFacts.

(** ** Keywords of get_meta *)

Section MoreKeywords.

Lemma find_all_name soup name t :
  In t (find_all soup name) -> exists attrs cs, t = Tag name attrs cs.
Proof.
  unfold find_all. intros H. apply in_flat_map in H as (c & _ & H).
  eapply tags_named_name. eassumption.
Qed.

Lemma append_assoc (s1 s2 s3 : string) :
  ((s1 ++ s2) ++ s3)%string = (s1 ++ (s2 ++ s3))%string.
Proof. induction s1 as [|a s1 IH]; simpl; auto. now rewrite IH. Qed.

Lemma str_join_app sep l1 l2 :
  l1 <> [] -> l2 <> [] ->
  str_join sep (l1 ++ l2)
  = (str_join sep l1 ++ String sep (str_join sep l2))%string.
Proof.
  intros H1 H2. induction l1 as [|x l1 IH]; [congruence|].
  destruct l1 as [|y l1].
  - simpl. destruct l2; [congruence | reflexivity].
  - change ((x :: y :: l1) ++ l2) with (x :: ((y :: l1) ++ l2)).
    rewrite str_join_cons by discriminate.
    rewrite IH by discriminate.
    rewrite (str_join_cons sep x (y :: l1)) by discriminate.
    now rewrite append_assoc.
Qed.

Lemma str_join_split_all sep (l : list string) :
  str_join sep (flat_map (PyStr.split sep) l) = str_join sep l.
Proof.
  induction l as [|x l IH]; [reflexivity|].
  destruct l as [|y l].
  - simpl. rewrite app_nil_r. apply split_join.
  - change (flat_map (PyStr.split sep) (x :: y :: l))
      with (PyStr.split sep x ++ flat_map (PyStr.split sep) (y :: l)).
    rewrite str_join_app.
    + rewrite IH, split_join.
      now rewrite (str_join_cons sep x (y :: l)) by discriminate.
    + apply split_nonempty.
    + intros E. apply (f_equal (@List.length string)) in E.
      cbn [flat_map] in E. rewrite length_app, split_length in E.
      discriminate.
Qed.

End MoreKeywords.

(** X1: get_meta returns all the meta tags of the document, keywords tags
    or not, in document order; each of them is a tag named meta, and they are
    the tags the report lists. *)
Theorem get_meta_all_tags (response : Response) (rep : Report)
  (H : run_report response = Ok rep) :
  fst (get_meta (page_data response)) = find_all (page_data response) "meta"
  /\ (forall t, In t (fst (get_meta (page_data response))) ->
        exists attrs cs, t = Tag "meta" attrs cs)
  /\ meta rep = fst (get_meta (page_data response)).
Proof.
  rewrite get_meta_spec. cbn [fst].
  split; [reflexivity|]. split.
  - intros t. apply find_all_name.
  - apply run_report_Ok in H as (t & n & _ & _ & _ & ->). reflexivity.
Qed.

Lemma get_meta_all_tags_witness :
  List.length (meta (report_of design_response None 0)) = 2.
Proof.
  destruct (get_meta_all_tags design_response
              (report_of design_response None 0) eq_refl) as (E & _ & ->).
  rewrite E. reflexivity.
Defined.

(** X2: no keyword of get_meta contains a comma; every keywords tag gives
    one keyword more than its content has commas, so at least one; and the
    keywords joined by commas are the contents of the keywords tags joined
    by commas. *)
Theorem get_meta_keywords_shape (soup : BeautifulSoup) :
  let keywords := snd (get_meta soup) in
  let tags := filter is_keywords_tag (find_all soup "meta") in
  Forall (fun k => PyStr.count "," k = 0) keywords
  /\ List.length keywords
     = fold_right (fun m n => S (PyStr.count "," (content_of m)) + n) 0 tags
  /\ List.length tags <= List.length keywords
  /\ str_join "," keywords = str_join "," (map content_of tags).
Proof.
  intros keywords tags. unfold keywords, tags. rewrite get_meta_spec.
  cbn [snd]. generalize (filter is_keywords_tag (find_all soup "meta")).
  intros l.
  assert (Hlen : List.length (flat_map tag_keywords l)
                 = fold_right
                     (fun m n => S (PyStr.count "," (content_of m)) + n) 0 l).
  { induction l as [|m l IH]; simpl; auto.
    rewrite length_app, IH. unfold tag_keywords at 1.
    fold (content_of m). now rewrite split_length. }
  split; [|split; [exact Hlen | split]].
  - apply Forall_forall. intros k Hk.
    apply in_flat_map in Hk as (m & _ & Hk). unfold tag_keywords in Hk.
    pose proof (split_no_sep "," (content_of m)) as Hs.
    rewrite Forall_forall in Hs. now apply Hs.
  - rewrite Hlen. clear Hlen.
    induction l as [|m l IH]; cbn [fold_right List.length]; lia.
  - rewrite <- (str_join_split_all "," (map content_of l)).
    f_equal. rewrite flat_map_concat_map, flat_map_concat_map, map_map.
    reflexivity.
Qed.

Example get_meta_keywords_design :
  snd (get_meta design_page) = ["Web Design"; "node.js"; "WEB "].
Proof. reflexivity. Qed.

(** ** Shape of the words *)

Section WordShape.

Lemma normalize_clean segment :
  PyStr.count " " segment = 0 -> clean_word (normalize segment).
Proof.
  intros Hs. unfold clean_word, normalize.
  rewrite (count_lower " ") by apply lower_char_space.
  rewrite (count_lower ",") by apply lower_char_comma.
  rewrite (count_lower ".") by apply lower_char_period.
  rewrite lower_idem, count_remove_same.
  pose proof (count_remove_le " " "." (PyStr.remove "," (PyStr.strip segment))).
  pose proof (count_remove_le " " "," (PyStr.strip segment)).
  pose proof (count_strip_le " " segment).
  pose proof (count_remove_le "," "." (PyStr.remove "," (PyStr.strip segment))).
  pose proof (count_remove_same "," (PyStr.strip segment)).
  repeat split; lia.
Qed.

Lemma document_words_clean soup w :
  In w (document_words soup) -> clean_word w.
Proof.
  unfold document_words. intros H.
  apply in_flat_map in H as (row & _ & H). unfold row_words in H.
  apply in_map_iff in H as (segment & <- & H).
  apply normalize_clean.
  pose proof (split_no_sep " " (PyStr.strip (text row))) as Hs.
  rewrite Forall_forall in Hs. now apply Hs.
Qed.

End WordShape.

(** X3: no word returned by filter_content contains a space, a comma or a
    period, and every word is its own lower-case form. *)
Theorem filter_content_word_shape (soup : BeautifulSoup)
  (wordlist : list string)
  (H : filter_content soup is_visible = Ok wordlist) :
  Forall (fun w =>
            PyStr.count " " w = 0 /\ PyStr.count "," w = 0
            /\ PyStr.count "." w = 0 /\ PyStr.lower w = w)
         wordlist.
Proof.
  rewrite filter_content_ok in H. injection H as <-.
  apply Forall_forall. intros w. apply document_words_clean.
Qed.

Lemma filter_content_word_shape_witness :
  Forall (fun w =>
            PyStr.count " " w = 0 /\ PyStr.count "," w = 0
            /\ PyStr.count "." w = 0 /\ PyStr.lower w = w)
         ["web"; "design"; "with"; "nodejs"; "more"; "web"; "web"].
Proof.
  exact (filter_content_word_shape design_page
           ["web"; "design"; "with"; "nodejs"; "more"; "web"; "web"] eq_refl).
Defined.

(** X4: a keyword that, stripped, contains a space, or that contains a
    period, is always reported as not in content, whatever the page says:
    the words it is compared with have neither. *)
Theorem spaced_keyword_reported (response : Response) (rep : Report)
  (keyword : string)
  (H : run_report response = Ok rep)
  (Hk : In keyword (snd (get_meta (page_data response))))
  (Hshape : 0 < PyStr.count " " (PyStr.strip keyword)
            \/ 0 < PyStr.count "." keyword) :
  In (PyStr.strip keyword) (keywords_not_in_content rep).
Proof.
  apply run_report_Ok in H as (t & n & _ & _ & _ & ->).
  cbn [keywords_not_in_content report_of].
  rewrite not_in_content_spec. apply in_map. apply filter_In. split.
  - rewrite get_meta_spec in Hk. exact Hk.
  - unfold absent. apply negb_true_iff, not_true_iff_false.
    rewrite contains_In. intros Hin.
    apply document_words_clean in Hin as (Hs & _ & Hp & _).
    rewrite strip_lower in Hs, Hp.
    rewrite (count_lower " ") in Hs by apply lower_char_space.
    rewrite (count_lower ".") in Hp by apply lower_char_period.
    rewrite (count_strip ".") in Hp by reflexivity.
    lia.
Qed.

Lemma spaced_keyword_reported_witness :
  In "Web Design" (keywords_not_in_content (report_of design_response None 0))
  /\ In "node.js" (keywords_not_in_content (report_of design_response None 0)).
Proof.
  split.
  - apply (spaced_keyword_reported design_response _ "Web Design" eq_refl).
    + simpl. auto.
    + left. vm_compute. lia.
  - apply (spaced_keyword_reported design_response _ "node.js" eq_refl).
    + simpl. auto.
    + right. vm_compute. lia.
Defined.

(** X5: the keyword test ignores the case of the keywords and the
    whitespace around them: lowering all keywords beforehand reports the
    same keywords, lowered, and stripping them beforehand reports exactly
    the same lines. *)
Theorem not_in_content_insensitive (wordlist keywords : list string) :
  not_in_content wordlist (map PyStr.lower keywords)
  = map PyStr.lower (not_in_content wordlist keywords)
  /\ not_in_content wordlist (map PyStr.strip keywords)
     = not_in_content wordlist keywords.
Proof.
  rewrite !not_in_content_spec, !filter_map_swap, !map_map. split.
  - assert (E : forall k, absent wordlist (PyStr.lower k) = absent wordlist k)
      by (intros k; unfold absent; now rewrite lower_idem).
    rewrite (filter_ext _ _ E).
    apply map_ext. intros k. apply strip_lower.
  - assert (E : forall k, absent wordlist (PyStr.strip k) = absent wordlist k).
    { intros k. unfold absent.
      now rewrite <- strip_lower, strip_idem. }
    rewrite (filter_ext _ _ E).
    apply map_ext. intros k. apply strip_idem.
Qed.

(** ** filter_content over the tree *)

Section OnePass.

Lemma visible_words_spec e :
  forall pname,
    flat_map row_words (filter contributes (strings_under pname e))
    = visible_words pname e.
Proof.
  induction e as [n attrs cs IH|s] using PageElement_tree_ind; intros pname.
  - cbn [strings_under visible_words].
    rewrite filter_flat_map, flat_map_flat_map.
    apply flat_map_Forall_ext.
    apply Forall_forall. rewrite Forall_forall in IH. intros c Hc.
    now apply IH.
  - cbn [strings_under visible_words filter]. unfold contributes, is_visible.
    cbn [parent text].
    destruct (PyStr.contains ignore pname); [reflexivity|].
    destruct (Re.match_comment s); [reflexivity|].
    destruct (PyStr.truthy (PyStr.strip s)); [|reflexivity].
    cbn [flat_map]. unfold row_words. cbn [text]. apply app_nil_r.
Qed.

Lemma strings_under_drop e :
  forall pname,
    flat_map (strings_under pname) (drop_hidden_text pname e)
    = filter parent_shown (strings_under pname e).
Proof.
  induction e as [n attrs cs IH|s] using PageElement_tree_ind; intros pname.
  - cbn [drop_hidden_text flat_map strings_under]. rewrite app_nil_r.
    rewrite flat_map_flat_map, filter_flat_map.
    apply flat_map_Forall_ext.
    apply Forall_forall. rewrite Forall_forall in IH. intros c Hc.
    now apply IH.
  - cbn [drop_hidden_text strings_under filter]. unfold parent_shown.
    cbn [parent].
    destruct (PyStr.contains ignore pname); reflexivity.
Qed.

Lemma contributes_parent_shown row :
  contributes row = true -> parent_shown row = true.
Proof.
  unfold contributes, is_visible, parent_shown.
  destruct (parent row) as [name|]; auto.
  destruct (PyStr.contains ignore name); [discriminate | reflexivity].
Qed.

End OnePass.

(** X6: filter_content computes the words of a document in one pass over
    its tree: a text node gives its normalised segments unless its parent is
    in the ignore list, it matches the comment pattern or it is blank, and
    an element gives the words of its children in order, whatever element it
    stands in; filter_content never raises on a document. *)
Theorem filter_content_one_pass (soup : BeautifulSoup) :
  filter_content soup is_visible
  = Ok (flat_map (visible_words document_name) (contents soup)).
Proof.
  rewrite filter_content_ok. f_equal. unfold find_all_text.
  rewrite filter_flat_map, flat_map_flat_map.
  apply flat_map_Forall_ext, Forall_forall. intros c _.
  apply visible_words_spec.
Qed.

(** X7: the text that stands directly in a head, title, style or script
    element or at the root of the document never reaches the word list:
    taking all of it out of the tree, which leaves exactly the other text
    nodes, gives the same result of filter_content. *)
Theorem hidden_text_ignored (soup : BeautifulSoup) :
  find_all_text (drop_hidden soup)
  = filter parent_shown (find_all_text soup)
  /\ filter_content (drop_hidden soup) is_visible
     = filter_content soup is_visible.
Proof.
  assert (E : find_all_text (drop_hidden soup)
              = filter parent_shown (find_all_text soup)).
  { unfold find_all_text, drop_hidden. cbn [contents].
    rewrite flat_map_flat_map, filter_flat_map.
    apply flat_map_Forall_ext, Forall_forall. intros c _.
    apply strings_under_drop. }
  split; [exact E|].
  rewrite !filter_content_ok, E. f_equal. f_equal.
  apply filter_filter_implied, contributes_parent_shown.
Qed.

Example hidden_text_design :
  find_all_text (drop_hidden design_page)
  = [ {| parent := Some "p"; text := "Web design with node.js" |};
      {| parent := Some "a"; text := "more web" |};
      {| parent := Some "a"; text := "Web" |} ].
Proof. reflexivity. Qed.

(** ** The tally and the ranking *)

Section MoreTally.

Lemma dict_get_In (d : Dict) k v : dict_get d k = Some v -> In (k, v) d.
Proof.
  induction d as [|[k' v'] d IH]; simpl; [discriminate|].
  destruct (String.eqb_spec k' k) as [->|].
  - intros [= ->]. now left.
  - intros H. right. auto.
Qed.

Lemma dict_In_get (d : Dict) k v :
  NoDup (map fst d) -> In (k, v) d -> dict_get d k = Some v.
Proof.
  induction d as [|[k' v'] d IH]; simpl; [tauto|].
  intros Hnd [[= -> ->]|Hin].
  - now rewrite String.eqb_refl.
  - inversion Hnd as [|? ? Hk' Hnd']; subst.
    destruct (String.eqb_spec k' k) as [->|]; auto.
    exfalso. apply Hk'. apply in_map_iff. now exists (k, v).
Qed.

Lemma word_count_list_In l e :
  In e (word_count_list (word_tally l)) <->
  dict_get (word_tally l) (word e) = Some (count e).
Proof.
  unfold word_count_list. rewrite in_map_iff. split.
  - intros ([k v] & <- & H). simpl.
    apply dict_In_get; auto. apply word_tally_keys_NoDup.
  - intros H. apply dict_get_In in H.
    exists (word e, count e). split; auto. now destruct e.
Qed.

Lemma word_count_positive l e :
  In e (word_count_list (word_tally l)) -> (1 <= count e)%Z.
Proof.
  rewrite word_count_list_In, word_tally_get. unfold occurrences.
  destruct (count_occ string_dec l (word e)); [discriminate|].
  intros [= <-]. lia.
Qed.

Lemma count_sum_app l1 l2 :
  count_sum (l1 ++ l2) = (count_sum l1 + count_sum l2)%Z.
Proof.
  unfold count_sum. induction l1 as [|x l1 IH]; simpl in *; lia.
Qed.

Lemma count_sum_perm l1 l2 :
  Permutation l1 l2 -> count_sum l1 = count_sum l2.
Proof.
  unfold count_sum. induction 1; simpl in *; lia.
Qed.

Lemma count_sum_word_count_list d :
  count_sum (word_count_list d) = dict_sum d.
Proof.
  unfold count_sum, dict_sum, word_count_list. now rewrite map_map.
Qed.

Lemma count_sum_nonneg l :
  (forall e, In e l -> (1 <= count e)%Z) -> (0 <= count_sum l)%Z.
Proof.
  unfold count_sum. induction l as [|x l IH]; simpl; intros H; [lia|].
  pose proof (H x (or_introl eq_refl)).
  assert (0 <= fold_right Z.add 0 (map count l))%Z by (apply IH; auto).
  lia.
Qed.

Lemma StronglySorted_app_order l1 l2 a b :
  StronglySorted count_ge (l1 ++ l2) -> In a l1 -> In b l2 -> count_ge a b.
Proof.
  induction l1 as [|x l1 IH]; simpl; [tauto|].
  intros Hs [->|Ha] Hb; inversion Hs as [|? ? Hs' Hall]; subst; auto.
  rewrite Forall_forall in Hall. apply Hall, in_or_app. now right.
Qed.

End MoreTally.

(** X8: word_tally stores for every word exactly the number of its
    occurrences in the list and has no entry for any other string; the counts
    do not depend on the order of the list. *)
Theorem word_tally_lookup (word_list : list string) (w : string) :
  (In w word_list ->
   dict_get (word_tally word_list) w
   = Some (Z.of_nat (count_occ string_dec word_list w)))
  /\ (dict_get (word_tally word_list) w = None <-> ~ In w word_list)
  /\ (forall other, Permutation word_list other ->
        dict_get (word_tally other) w = dict_get (word_tally word_list) w).
Proof.
  split; [|split].
  - intros Hin. rewrite word_tally_get. unfold occurrences.
    apply (count_occ_In string_dec) in Hin.
    destruct (count_occ string_dec word_list w); [lia | reflexivity].
  - rewrite dict_get_None. now rewrite word_tally_keys_In.
  - intros other Hp. rewrite !word_tally_get. unfold occurrences.
    pose proof (proj1 (Permutation_count_occ string_dec word_list other)
                  Hp w) as E.
    now rewrite E.
Qed.

(** X9: the listed words really are the most common ones: they are
    pairwise distinct, on every page, and a word of the page that is not
    listed occurs at most as often as each listed word. *)
Theorem most_common_dominates (wordlist : list string) :
  let top := five_most_common (word_count_list (word_tally wordlist)) in
  NoDup (map word top)
  /\ (forall e w,
        In e top -> In w wordlist -> ~ In w (map word top) ->
        (Z.of_nat (count_occ string_dec wordlist w) <= count e)%Z).
Proof.
  intros top. unfold top, five_most_common.
  set (s := sorted_by_count (word_count_list (word_tally wordlist))).
  assert (Hperm : Permutation (word_count_list (word_tally wordlist)) s)
    by apply sorted_by_count_perm.
  split.
  - assert (Hnd : NoDup (map word s)).
    { eapply Permutation_NoDup; [apply Permutation_map, Hperm|].
      unfold word_count_list. rewrite map_map. simpl.
      apply word_tally_keys_NoDup. }
    rewrite <- (firstn_skipn 5 s), map_app in Hnd.
    eapply NoDup_app_remove_r. exact Hnd.
  - intros e w He Hw Hout.
    set (entry := {| word := w;
                     count := Z.of_nat (count_occ string_dec wordlist w) |}).
    assert (Hin : In entry s).
    { eapply Permutation_in; [exact Hperm|].
      apply word_count_list_In. simpl.
      rewrite word_tally_get. unfold occurrences.
      apply (count_occ_In string_dec) in Hw.
      destruct (count_occ string_dec wordlist w); [lia | reflexivity]. }
    rewrite <- (firstn_skipn 5 s) in Hin. apply in_app_or in Hin as [Hin|Hin].
    + exfalso. apply Hout. apply in_map_iff. now exists entry.
    + change (count_ge e entry).
      apply (StronglySorted_app_order (firstn 5 s) (skipn 5 s)); auto.
      rewrite firstn_skipn. apply sorted_by_count_sorted.
Qed.

Lemma most_common_dominates_witness :
  NoDup (map word
           (five_most_common
              (word_count_list
                 (word_tally ["a"; "b"; "a"; "c"; "d"; "e"; "f"; "b"]))))
  /\ (Z.of_nat
        (count_occ string_dec ["a"; "b"; "a"; "c"; "d"; "e"; "f"; "b"] "f")
      <= 2)%Z.
Proof.
  destruct (most_common_dominates
              ["a"; "b"; "a"; "c"; "d"; "e"; "f"; "b"]) as [Hnd Hdom].
  split; [exact Hnd|].
  apply (Hdom {| word := "a"; count := 2 |} "f").
  - simpl. auto.
  - simpl. auto 10.
  - vm_compute. intros H. repeat destruct H as [H|H]; try discriminate H.
    exact H.
Defined.

(** X10: for every word list, the tally has at most as many entries as the
    list has words; the list of the most common words is empty exactly when
    there is no word; the counts it shows sum to at most the number of words,
    and to exactly that number when there are at most five distinct
    words. *)
Theorem most_common_totals (wordlist : list string) :
  let top := five_most_common (word_count_list (word_tally wordlist)) in
  List.length (word_tally wordlist) <= List.length wordlist
  /\ (top = [] <-> wordlist = [])
  /\ (count_sum top <= Z.of_nat (List.length wordlist))%Z
  /\ (List.length (word_tally wordlist) <= 5 ->
      count_sum top = Z.of_nat (List.length wordlist)).
Proof.
  intros top. unfold top, five_most_common.
  set (s := sorted_by_count (word_count_list (word_tally wordlist))).
  assert (Hperm : Permutation (word_count_list (word_tally wordlist)) s)
    by apply sorted_by_count_perm.
  assert (Hsum : count_sum s = Z.of_nat (List.length wordlist)).
  { rewrite <- (count_sum_perm _ _ Hperm), count_sum_word_count_list.
    apply word_tally_sum. }
  assert (Hlen : List.length s = List.length (word_tally wordlist)).
  { unfold s. rewrite sorted_by_count_length. unfold word_count_list.
    apply length_map. }
  split; [|split; [|split]].
  - rewrite word_tally_length.
    clear. induction wordlist as [|x l IH]; simpl; auto.
    destruct (in_dec string_dec x l); simpl; lia.
  - split.
    + intros E. apply (f_equal (@List.length WordCount)) in E.
      rewrite length_firstn, Hlen in E. simpl in E.
      destruct wordlist as [|x l]; auto. exfalso.
      assert (Hin : In x (map fst (word_tally (x :: l))))
        by (apply word_tally_keys_In; now left).
      destruct (word_tally (x :: l)); [contradiction | simpl in E; lia].
    + intros ->. reflexivity.
  - assert (Hsplit : count_sum s
                     = (count_sum (firstn 5 s) + count_sum (skipn 5 s))%Z)
      by (now rewrite <- count_sum_app, firstn_skipn).
    assert (0 <= count_sum (skipn 5 s))%Z; [|lia].
    apply count_sum_nonneg. intros e He.
    apply (word_count_positive wordlist).
    eapply Permutation_in; [symmetry; exact Hperm|].
    rewrite <- (firstn_skipn 5 s). apply in_or_app. now right.
  - intros H5. rewrite firstn_all2 by lia. exact Hsum.
Qed.

(** ** Errors of run_report and main *)

(** X11: run_report produces a report only for a document with a title tag
    and, when the response has a Content-Length header, only if that header
    reads as an integer literal, of absolute value below 2^1034: with no
    title tag, with any other header text, or with a length beyond the
    doubles there is no report. *)
Theorem run_report_requires (response : Response) (rep : Report)
  (H : run_report response = Ok rep) :
  find (page_data response) "title" <> None
  /\ (forall v,
        headers_get (headers response) "Content-Length" = Some v ->
        exists n, py_int v = Ok n /\ (Z.abs n < 2 ^ 1034)%Z).
Proof.
  apply run_report_Ok in H as (t & octets & Ht & Hlen & [q Hq] & _).
  split.
  - unfold page_title in Ht.
    destruct (find (page_data response) "title"); [discriminate|].
    discriminate Ht.
  - intros v Hv. unfold content_length in Hlen. rewrite Hv in Hlen.
    exists octets. split; [exact Hlen|].
    eapply true_divide_1024_range. exact Hq.
Qed.

Lemma run_report_requires_witness :
  find (page_data cat_response) "title" <> None
  /\ exists n, py_int "2048" = Ok n /\ (Z.abs n < 2 ^ 1034)%Z.
Proof.
  destruct (run_report_requires cat_response
              (report_of cat_response (Some "Cats") 2048) eq_refl)
    as [Ht Hv].
  split; [exact Ht|]. apply Hv. reflexivity.
Defined.

(** A title and a Content-Length of letters: no report. *)
Example run_report_bad_length :
  run_report {| page_data := cat_page;
                headers := [("content-length", "2 KB")] |}
  = Raise ValueError.
Proof. reflexivity. Qed.

(** A separator that [str.strip] removes is no whitespace for [int]. *)
Example py_int_separator :
  py_int (String (ascii_of_nat 28) "12") = Raise ValueError
  /\ py_int (String (ascii_of_nat 160) " 1_2 ") = Ok 12%Z.
Proof. split; reflexivity. Qed.

(** X12: the title of a report is read from the first title tag of the
    document only; it is None, and the report is still produced, when that
    tag has no child or more than one, and it is the text when the tag holds
    one text node. *)
Theorem report_title (response : Response) (rep : Report)
  (H : run_report response = Ok rep) :
  exists t rest,
    find_all (page_data response) "title" = t :: rest
    /\ title rep = tag_string t
    /\ (forall n attrs cs,
          t = Tag n attrs cs -> List.length cs <> 1 -> title rep = None)
    /\ (forall n attrs s,
          t = Tag n attrs [NavigableString s] -> title rep = Some s).
Proof.
  apply run_report_Ok in H as (ti & n & Ht & _ & _ & ->).
  unfold page_title, find in Ht.
  destruct (find_all (page_data response) "title") as [|t rest];
    [discriminate|].
  injection Ht as <-. exists t, rest. cbn [title report_of].
  split; [reflexivity|]. split; [reflexivity|]. split.
  - intros n' attrs cs -> Hlen.
    destruct cs as [|c [|c' cs]]; simpl in *; congruence.
  - intros n' attrs s ->. reflexivity.
Qed.

Lemma report_title_witness :
  title (report_of design_response None 0) = None
  /\ title (report_of cat_response (Some "Cats") 2048) = Some "Cats".
Proof.
  split.
  - destruct (report_title design_response _ eq_refl)
      as (t & rest & Hf & _ & Hnone & _).
    injection Hf as <- _. now apply (Hnone "title" [] []).
  - destruct (report_title cat_response _ eq_refl)
      as (t & rest & Hf & _ & _ & Hsome).
    injection Hf as <- _. now apply (Hsome "title" [] "Cats").
Defined.


(** A reply with status 200 and a page without title: the exception of
    run_report leaves main. *)
Example main_untitled :
  main (Ok "example.org")
       (fun _ => Fetched {| status_code := 200; reply_text := "";
                            reply := untitled_response |})
  = Raise AttributeError.
Proof. reflexivity. Qed.

(** A reply with status 404 is reported with its text, and not analysed. *)
Example main_not_found :
  main (Ok "example.org")
       (fun _ => Fetched {| status_code := 404; reply_text := "Not Found";
                            reply := untitled_response |})
  = Ok (HTTPError 404 "Not Found").
Proof. reflexivity. Qed.

(** The end of the input at the prompt: no request is made. *)
Example main_end_of_input :
  main (Raise EOFError) (fun _ => Failed "ConnectionError" "")
  = Raise EOFError.
Proof. reflexivity. Qed.

(** ** Hyperlinks *)

Section Hyperlinks.

Lemma attr_get_None attrs key :
  attr_get attrs key = None <-> ~ In key (map fst attrs).
Proof.
  induction attrs as [|[k v] attrs IH]; simpl.
  - tauto.
  - destruct (String.eqb_spec k key) as [->|Hne].
    + split; [discriminate | tauto].
    + rewrite IH. tauto.
Qed.

End Hyperlinks.

(** X14: the report lists one hyperlink for every tag named a of the
    document, in document order, none left out: its target is the href
    attribute of the tag, None exactly when the tag has no such attribute,
    and its text is the string of the tag, None when the tag has no child or
    several. *)
Theorem hyperlinks_listed (response : Response) (rep : Report)
  (H : run_report response = Ok rep) :
  Forall2
    (fun link entry =>
       exists attrs cs,
         link = Tag "a" attrs cs
         /\ entry = (tag_string link, attr_get attrs "href")
         /\ (snd entry = None <-> ~ In "href" (map fst attrs))
         /\ (List.length cs <> 1 -> fst entry = None))
    (find_all (page_data response) "a") (hyperlinks rep).
Proof.
  apply run_report_Ok in H as (t & n & _ & _ & _ & ->).
  cbn [hyperlinks report_of].
  assert (Hname : forall link, In link (find_all (page_data response) "a") ->
                    exists attrs cs, link = Tag "a" attrs cs)
    by (intros link; apply find_all_name).
  induction (find_all (page_data response) "a") as [|link l IH]; simpl.
  - constructor.
  - constructor.
    + destruct (Hname link (or_introl eq_refl)) as (attrs & cs & ->).
      exists attrs, cs. cbn [get fst snd].
      split; [reflexivity|]. split; [reflexivity|]. split.
      * apply attr_get_None.
      * intros Hlen. destruct cs as [|c [|c' cs]]; simpl in *; congruence.
    + apply IH. intros link' Hin. apply Hname. now right.
Qed.

Lemma hyperlinks_listed_witness :
  List.length (hyperlinks (report_of design_response None 0)) = 2.
Proof.
  rewrite <- (Forall2_length
                (hyperlinks_listed design_response
                   (report_of design_response None 0) eq_refl)).
  reflexivity.
Defined.

Example hyperlinks_design :
  hyperlinks (report_of design_response None 0)
  = [(None, Some "/more"); (Some "Web", None)].
Proof. reflexivity. Qed.

(** ** filter_content with another callback *)

Section Callback.

Variable content_filter : TextNode -> result bool.

Lemma filter_content_loop_kept page_text :
  (forall row, In row page_text -> exists b, content_filter row = Ok b) ->
  forall word_list,
    filter_content_loop content_filter page_text word_list
    = Ok (word_list
          ++ flat_map row_words (filter (kept_by content_filter) page_text)).
Proof.
  induction page_text as [|row rest IH]; intros Hok word_list; simpl.
  - now rewrite app_nil_r.
  - destruct (Hok row (or_introl eq_refl)) as [b Hb].
    unfold kept_by at 1. rewrite Hb. simpl.
    assert (Hrest : forall r, In r rest -> exists b, content_filter r = Ok b)
      by (intros; apply Hok; now right).
    destruct b; [|now apply IH].
    destruct (PyStr.truthy (PyStr.strip (text row))); [|now apply IH].
    rewrite IH by assumption. simpl. fold (row_words row).
    now rewrite app_assoc.
Qed.

Lemma filter_content_loop_raises before row after e :
  (forall r, In r before -> exists b, content_filter r = Ok b) ->
  content_filter row = Raise e ->
  forall word_list,
    filter_content_loop content_filter (before ++ row :: after) word_list
    = Raise e.
Proof.
  intros Hok Hrow. induction before as [|r before IH]; intros word_list; simpl.
  - now rewrite Hrow.
  - destruct (Hok r (or_introl eq_refl)) as [b Hb]. rewrite Hb. simpl.
    assert (Hrest : forall r', In r' before ->
                      exists b, content_filter r' = Ok b)
      by (intros; apply Hok; now right).
    destruct b; [destruct (PyStr.truthy (PyStr.strip (text r)))|];
      now apply IH.
Qed.

End Callback.

(** X15: with any callback that returns a truth value on every text node of
    the document, filter_content returns the normalised segments of the nodes
    the callback accepts and whose stripped text is not empty, in document
    order; the blank nodes are left out whatever the callback says. *)
Theorem filter_content_callback (soup : BeautifulSoup)
  (content_filter : TextNode -> result bool)
  (Hok : forall row, In row (find_all_text soup) ->
           exists b, content_filter row = Ok b) :
  filter_content soup content_filter
  = Ok (flat_map
          (fun row => map normalize (PyStr.split " " (PyStr.strip (text row))))
          (filter
             (fun row =>
                match content_filter row with
                | Ok true => PyStr.truthy (PyStr.strip (text row))
                | _ => false
                end)
             (find_all_text soup))).
Proof.
  unfold filter_content. now rewrite filter_content_loop_kept.
Qed.

Lemma filter_content_callback_witness :
  filter_content cat_page all_text
  = Ok ["cats"; "var"; "cat"; "="; "1;"; "cat"; "cat"; "dog"].
Proof.
  rewrite (filter_content_callback cat_page all_text).
  - reflexivity.
  - intros row _. now exists true.
Defined.

(** X16: when the callback raises on a text node and has returned on all
    the nodes before it, filter_content raises that exception and returns no
    words, the ones gathered so far included. *)
Theorem filter_content_callback_raises (soup : BeautifulSoup)
  (content_filter : TextNode -> result bool)
  (before after : list TextNode) (row : TextNode) (e : exn)
  (Hsplit : find_all_text soup = before ++ row :: after)
  (Hok : forall r, In r before -> exists b, content_filter r = Ok b)
  (Hrow : content_filter row = Raise e) :
  filter_content soup content_filter = Raise e.
Proof.
  unfold filter_content. rewrite Hsplit.
  now apply filter_content_loop_raises.
Qed.

Lemma filter_content_callback_raises_witness :
  filter_content cat_page no_scripts = Raise ValueError.
Proof.
  apply (filter_content_callback_raises cat_page no_scripts
           [ {| parent := Some "title"; text := "Cats" |} ]
           [ {| parent := Some "p"; text := "Cat cat dog." |} ]
           {| parent := Some "script"; text := "var cat = 1;" |}).
  - reflexivity.
  - intros r [<-|[]]. now exists true.
  - reflexivity.
Defined.
